(** * flatblocks.templatetags.flatblock_tags

    A shallow embedding of the [flatblock] / [plain_flatblock] template tags
    (src/flatblocks/templatetags/flatblock_tags.py): the argument parser
    [BasicFlatBlockWrapper.prepare], the two [__call__] wrappers,
    [FlatBlockNode.__init__] and [FlatBlockNode.render].

    Python strings are byte strings here ([String.string]); the quote
    characters the parser looks for are ASCII, so indexing the first and the
    last byte agrees with indexing the first and the last character of a
    UTF-8 encoded token. *)

From Stdlib Require Import ZArith Ascii String List Bool Lia.
From stdpp Require Import base option gmap strings list fin_maps.

Import ListNotations.
Local Open Scope string_scope.
Local Open Scope Z_scope.

(** ** Exceptions and results *)

(** The two messages [prepare] formats; both carry the tag name
    ([tokens[0]]) that the source interpolates with [{0!r}]. *)
Inductive syntax_msg : Type :=
| TwoArgumentsMsg (tag_name : string)
    (* ... tag with two arguments has to include the cache timeout and
       the evaluated flag *)
| ArgumentCountMsg (tag_name : string)
    (* ... tag should have between 1 and 5 arguments *)
| OtherSyntaxMsg (text : string).
    (* a message of the framework's own, never one of [prepare] *)

Inductive exn : Type :=
| IndexError
| ValueError
| TypeError
| TemplateSyntaxError (msg : syntax_msg)
| DoesNotExist                      (* FlatBlock.DoesNotExist *)
| HostError (name : string).        (* any other exception of the framework *)

Inductive result (A : Type) : Type :=
| Ok (a : A)
| Raise (e : exn).
Arguments Ok {A} a.
Arguments Raise {A} e.

Definition result_bind {A B} (r : result A) (k : A -> result B) : result B :=
  match r with
  | Ok a => k a
  | Raise e => Raise e
  end.

Definition exn_is_DoesNotExist (e : exn) : bool :=
  match e with DoesNotExist => true | _ => false end.

(** ** Python built-ins used by the parser *)

Module Py.

(** [s[0]] *)
Definition first (s : string) : result ascii :=
  match s with
  | EmptyString => Raise IndexError
  | String c _ => Ok c
  end.

(** [s[-1]] *)
Fixpoint last (s : string) : result ascii :=
  match s with
  | EmptyString => Raise IndexError
  | String c EmptyString => Ok c
  | String _ r => last r
  end.

(** [s[:-1]] *)
Fixpoint drop_last (s : string) : string :=
  match s with
  | EmptyString => EmptyString
  | String _ EmptyString => EmptyString
  | String c r => String c (drop_last r)
  end.

(** [s[1:-1]]: slicing never raises. *)
Definition slice_1_m1 (s : string) : string :=
  match s with
  | EmptyString => EmptyString
  | String _ r => drop_last r
  end.

(** Membership in the pair of the double and the single quote character
    (the test on line 123 and line 130). *)
Definition is_quote (c : ascii) : bool :=
  Ascii.eqb c (ascii_of_nat 34) || Ascii.eqb c (ascii_of_nat 39).

(** [lst[i]] for a non-negative index. *)
Definition index {A} (l : list A) (i : nat) : result A :=
  match nth_error l i with
  | Some a => Ok a
  | None => Raise IndexError
  end.

(** The ASCII white space [int] strips from both ends of its argument:
    tab, line feed, vertical tab, form feed, carriage return and space. *)
Definition is_space (c : ascii) : bool :=
  let n := nat_of_ascii c in
  ((9 <=? n) && (n <=? 13) || (n =? 32))%nat.

Fixpoint lstrip (s : string) : string :=
  match s with
  | String c r => if is_space c then lstrip r else s
  | EmptyString => EmptyString
  end.

Fixpoint rstrip (s : string) : string :=
  match s with
  | EmptyString => EmptyString
  | String c r =>
      match rstrip r with
      | EmptyString => if is_space c then EmptyString else String c EmptyString
      | r' => String c r'
      end
  end.

Definition digit (c : ascii) : option Z :=
  let n := nat_of_ascii c in
  if ((48 <=? n) && (n <=? 57))%nat then Some (Z.of_nat n - 48) else None.

(** One or more ASCII digits, most significant first. *)
Fixpoint digits (acc : Z) (s : string) : option Z :=
  match s with
  | EmptyString => Some acc
  | String c r =>
      match digit c with
      | Some d => digits (10 * acc + d) r
      | None => None
      end
  end.

Definition unsigned (s : string) : option Z :=
  match s with
  | String c r =>
      match digit c with
      | Some d => digits d r
      | None => None
      end
  | EmptyString => None
  end.

(** The strings on which [int] is pinned down here: every character is
    ASCII and none is an underscore. Digits and white space outside ASCII,
    and the underscores that newer interpreters allow between digits, are
    left to the interpreter. *)
Definition is_plain (c : ascii) : bool :=
  (nat_of_ascii c <? 128)%nat && negb (Ascii.eqb c (ascii_of_nat 95)).

Fixpoint plain (s : string) : bool :=
  match s with
  | EmptyString => true
  | String c r => is_plain c && plain r
  end.

(** [int(s)] in base 10 for a plain string: surrounding white space, an
    optional sign, one or more digits. The outer [None] is a string that is
    not plain; [Some None] is [ValueError]. *)
Definition int_ascii (s : string) : option (option Z) :=
  if plain s then
    Some match rstrip (lstrip s) with
         | String "+"%char r => unsigned r
         | String "-"%char r => Z.opp <$> unsigned r
         | t => unsigned t
         end
  else None.

End Py.

(** The interpreter's [int] on strings ([None] is [ValueError]): any
    function that agrees with [Py.int_ascii] on plain strings. *)
Class Python : Type := {
  py_int : string -> option Z;
  py_int_plain : forall s r, Py.int_ascii s = Some r -> py_int s = r
}.

(** ** Values of [cache_time]

    The attribute starts as the integer [0], is overwritten by the timeout
    token (a string), and is converted with [int] unless it is [None] or the
    string ['None']. A node built directly may hold any of the three. *)
Inductive cache_time_t : Type :=
| CTNone
| CTInt (z : Z)
| CTStr (s : string).

(** [cache_time != 0] *)
Definition ct_nonzero (ct : cache_time_t) : bool :=
  match ct with
  | CTInt z => negb (z =? 0)
  | CTNone | CTStr _ => true
  end.

(** [cache_time is None or cache_time == 'None'] *)
Definition ct_is_none (ct : cache_time_t) : bool :=
  match ct with
  | CTNone => true
  | CTStr s => String.eqb s "None"
  | CTInt _ => false
  end.

(** [int(cache_time)] *)
Definition ct_int `{P : Python} (ct : cache_time_t) : result Z :=
  match ct with
  | CTInt z => Ok z
  | CTStr s =>
      match py_int s with
      | Some z => Ok z
      | None => Raise ValueError
      end
  | CTNone => Raise TypeError
  end.

(** ** The parser: [BasicFlatBlockWrapper] *)

Module Wrapper.
Record t : Type := mk {
  is_variable : bool;
  tpl_is_variable : bool;
  slug : string;
  cache_time : cache_time_t;
  tpl_name : option string;
  evaluated : bool
}.

Definition set_is_variable (b : bool) (w : t) : t :=
  mk b (tpl_is_variable w) (slug w) (cache_time w) (tpl_name w) (evaluated w).
Definition set_tpl_is_variable (b : bool) (w : t) : t :=
  mk (is_variable w) b (slug w) (cache_time w) (tpl_name w) (evaluated w).
Definition set_slug (s : string) (w : t) : t :=
  mk (is_variable w) (tpl_is_variable w) s (cache_time w) (tpl_name w) (evaluated w).
Definition set_cache_time (c : cache_time_t) (w : t) : t :=
  mk (is_variable w) (tpl_is_variable w) (slug w) c (tpl_name w) (evaluated w).
Definition set_tpl_name (n : option string) (w : t) : t :=
  mk (is_variable w) (tpl_is_variable w) (slug w) (cache_time w) n (evaluated w).
Definition set_evaluated (b : bool) (w : t) : t :=
  mk (is_variable w) (tpl_is_variable w) (slug w) (cache_time w) (tpl_name w) b.
End Wrapper.

(** The test of lines 123 and 129-130: [s[0] == s[-1]] and [s[0]] is a quote
    character, negated. *)
Definition not_quoted (s : string) : result bool :=
  result_bind (Py.first s) (fun c0 =>
  result_bind (Py.last s) (fun c1 =>
  Ok (negb (Ascii.eqb c0 c1 && Py.is_quote c0)))).

(** Lines 82-121: the branch on [len(args)]. [self] already holds the
    defaults of lines 75-80 and the raw slug token. *)
Definition parse_args (tag_name : string) (args : list string)
    (self : Wrapper.t) : result Wrapper.t :=
  match args with
  | [] => Ok self
  | [a0] =>
      if String.eqb a0 "evaluated" then Ok (Wrapper.set_evaluated true self)
      else Ok (Wrapper.set_cache_time (CTStr a0) self)
  | [a0; a1] =>
      if negb (String.eqb a0 "using") then
        if negb (String.eqb a1 "evaluated") then
          Raise (TemplateSyntaxError (TwoArgumentsMsg tag_name))
        else
          Ok (Wrapper.set_evaluated true (Wrapper.set_cache_time (CTStr a0) self))
      else Ok (Wrapper.set_tpl_name (Some a1) self)
  | [a0; a1; a2] =>
      let self :=
        if String.eqb a0 "evaluated" then Wrapper.set_evaluated true self
        else Wrapper.set_cache_time (CTStr a0) self in
      Ok (Wrapper.set_tpl_name (Some a2) self)
  | [a0; a1; a2; a3] =>
      Ok (Wrapper.set_tpl_name (Some a3)
            (Wrapper.set_evaluated true
               (Wrapper.set_cache_time (CTStr a0) self)))
  | _ => Raise (TemplateSyntaxError (ArgumentCountMsg tag_name))
  end.

(** Lines 122-126. *)
Definition clean_slug (self : Wrapper.t) : result Wrapper.t :=
  result_bind (not_quoted (Wrapper.slug self)) (fun nq =>
  if nq then Ok (Wrapper.set_is_variable true self)
  else Ok (Wrapper.set_slug (Py.slice_1_m1 (Wrapper.slug self)) self)).

(** Lines 127-133. *)
Definition clean_tpl_name (self : Wrapper.t) : result Wrapper.t :=
  match Wrapper.tpl_name self with
  | None => Ok self
  | Some name =>
      result_bind (not_quoted name) (fun nq =>
      if nq then Ok (Wrapper.set_tpl_is_variable true self)
      else Ok (Wrapper.set_tpl_name (Some (Py.slice_1_m1 name)) self))
  end.

(** Lines 134-135. *)
Definition convert_cache_time `{P : Python} (self : Wrapper.t)
    : result Wrapper.t :=
  if negb (ct_is_none (Wrapper.cache_time self)) then
    result_bind (ct_int (Wrapper.cache_time self)) (fun z =>
    Ok (Wrapper.set_cache_time (CTInt z) self))
  else Ok self.

(** [prepare(parser, token)], on [tokens = token.split_contents()]. Every
    attribute is reset before it is read, so the wrapper after a successful
    call is a function of the tokens. *)
Definition prepare `{P : Python} (tokens : list string) : result Wrapper.t :=
  result_bind (Py.index tokens 0) (fun tag_name =>
  result_bind (Py.index tokens 1) (fun slug =>
  let args := drop 2 tokens in
  let self := Wrapper.mk false false slug (CTInt 0) None false in
  result_bind (parse_args tag_name args self) (fun self =>
  result_bind (clean_slug self) (fun self =>
  result_bind (clean_tpl_name self) (fun self =>
  convert_cache_time self))))).

(** ** The collaborators of the node *)

(** Modelled from the spec: the content record of the storage backend, which
    is not part of the source file (a simple record with slug, content and
    header fields). [raw_content] and [raw_header] are the two attributes
    that [render] assigns on it; [None] is a record on which they were never
    assigned. *)
Module FlatBlock.
Record t : Type := mk {
  slug : string;
  header : string;
  content : string;
  raw_content : option string;
  raw_header : option string
}.

Definition set_header (h : string) (b : t) : t :=
  mk (slug b) h (content b) (raw_content b) (raw_header b).
Definition set_content (c : string) (b : t) : t :=
  mk (slug b) (header b) c (raw_content b) (raw_header b).
Definition set_raw_content (c : option string) (b : t) : t :=
  mk (slug b) (header b) (content b) c (raw_header b).
Definition set_raw_header (h : option string) (b : t) : t :=
  mk (slug b) (header b) (content b) (raw_content b) h.
End FlatBlock.

(** The objects a template context binds names to, and so the objects a
    variable resolves to: strings, integers, [None] and content records. *)
Inductive value : Type :=
| VStr (s : string)
| VInt (z : Z)
| VNone
| VBlock (b : FlatBlock.t).

(** Modelled from the spec: the render context of the framework, as the
    finite map from names to values that a template sees. *)
Abbreviation RenderContext := (gmap string value).

(** [template.Context({})] *)
Definition Context_new : RenderContext := ∅.

(** [self.update(other)]: the bindings of [other] are pushed on top of those
    of [self]. *)
Definition Context_update (self other : RenderContext) : RenderContext :=
  other ∪ self.

(** [prefix + v] for a string [prefix]: concatenation with a string,
    [TypeError] with anything else. *)
Definition str_add (prefix : string) (v : value) : result string :=
  match v with
  | VStr s => Ok (prefix ++ s)
  | _ => Raise TypeError
  end.

(** The third argument of [cache.set]: absent (the backend's default
    timeout) or a number of seconds. *)
Inductive timeout_arg : Type :=
| DefaultTimeout
| Timeout (seconds : Z).

(** What the framework keeps between calls: the cache, the datastore (a
    key-value store of records by slug) and everything else a template can
    read or change (clock, request, loaders). *)
Record State (C E : Type) : Type := mkState {
  st_cache : C;
  st_db : gmap string FlatBlock.t;
  st_env : E
}.
Arguments mkState {C E} _ _ _.
Arguments st_cache {C E} _.
Arguments st_db {C E} _.
Arguments st_env {C E} _.

(** The framework and the settings module, neither of which is in the
    source file. The two renderings run arbitrary template code: they take
    the framework's state and return it, changed or not, with their
    result. *)
Class Host : Type := {
  CACHE_PREFIX : string;                 (* settings.CACHE_PREFIX *)
  AUTOCREATE_STATIC_BLOCKS : bool;       (* settings.AUTOCREATE_STATIC_BLOCKS *)
  default_header : string;               (* header of a freshly created record *)
  Cache : Type;
  Env : Type;
  cache_get : Cache -> string -> option FlatBlock.t;
  cache_set : Cache -> string -> FlatBlock.t -> timeout_arg -> Cache;
  (* template.Variable(var): the construction succeeds or raises *)
  Variable_init : string -> result unit;
  (* v.resolve(context) for a constructed v = template.Variable(var) *)
  Variable_lookup : string -> RenderContext -> result value;
  (* template.Template(source).render(context) *)
  Template_render : string -> RenderContext -> State Cache Env
                    -> result string * State Cache Env;
  (* loader.get_template(name).render(context) *)
  loader_render : value -> RenderContext -> State Cache Env
                  -> result string * State Cache Env;
  (* FlatBlock.objects.get(slug=v) for a v that is not a string *)
  objects_get_other : value -> State Cache Env
                      -> result FlatBlock.t * State Cache Env;
  (* FlatBlock.objects.get_or_create(slug=v, defaults={'content': c}) when
     v or c is not a string *)
  objects_get_or_create_other : value -> value -> State Cache Env
                      -> result (FlatBlock.t * bool) * State Cache Env
}.

(** [template.Variable(var).resolve(context)] *)
Definition Variable_resolve `{H : Host} (var : string)
    (context : RenderContext) : result value :=
  result_bind (Variable_init var) (fun _ => Variable_lookup var context).

(** ** The render node: [FlatBlockNode] *)

Module Node.
(** [self.template_name] is a plain name or a [template.Variable], kept by
    the string it was constructed from. *)
Inductive template_ref : Type :=
| TemplateName (name : string)
| TemplateVariable (var : string).

Record t : Type := mk {
  template_name : template_ref;
  slug : string;
  is_variable : bool;
  cache_time : cache_time_t;
  with_template : bool;
  evaluated : bool
}.
End Node.

(** [FlatBlockNode.__init__(slug, is_variable, cache_time, with_template,
    template_name, tpl_is_variable, evaluated)]; line 163 constructs a
    [template.Variable] and raises what that construction raises. *)
Definition FlatBlockNode `{H : Host} (slug : string) (is_variable : bool)
    (cache_time : cache_time_t) (with_template : bool)
    (template_name : option string) (tpl_is_variable : bool)
    (evaluated : bool) : result Node.t :=
  result_bind
    match template_name with
    | None => Ok (Node.TemplateName "flatblocks/flatblock.html")
    | Some name =>
        if tpl_is_variable
        then result_bind (Variable_init name) (fun _ =>
             Ok (Node.TemplateVariable name))
        else Ok (Node.TemplateName name)
    end
    (fun tn => Ok (Node.mk tn slug is_variable cache_time with_template evaluated)).

(** [BasicFlatBlockWrapper.__call__], registered as the tag [flatblock]. *)
Definition do_get_flatblock `{P : Python} `{H : Host} (tokens : list string)
    : result Node.t :=
  result_bind (prepare tokens) (fun self =>
  FlatBlockNode (Wrapper.slug self) (Wrapper.is_variable self)
    (Wrapper.cache_time self) true (Wrapper.tpl_name self)
    (Wrapper.tpl_is_variable self) (Wrapper.evaluated self)).

(** [PlainFlatBlockWrapper.__call__], registered as [plain_flatblock]. *)
Definition do_plain_flatblock `{P : Python} `{H : Host} (tokens : list string)
    : result Node.t :=
  result_bind (prepare tokens) (fun self =>
  FlatBlockNode (Wrapper.slug self) (Wrapper.is_variable self)
    (Wrapper.cache_time self) false None false (Wrapper.evaluated self)).

(** What [render] formats into its three debug messages. *)
Inductive log_msg : Type :=
| CachingDefaultMsg (real_slug : value)
| CachingSecondsMsg (real_slug : value) (cache_time : cache_time_t)
| DontCacheMsg (real_slug : value).

(** The calls [render] makes on the cache, the datastore and the logger. *)
Inductive Event : Type :=
| CacheGet (key : string)
| CacheSet (key : string) (b : FlatBlock.t) (timeout : timeout_arg)
| DbGet (slug : value)
| DbGetOrCreate (slug : value) (default_content : value)
| LogDebug (msg : log_msg).

Section Render.
Context `{P : Python} `{H : Host}.

(** The state [render] runs in: the framework's state and the calls this
    node has made so far, oldest first. *)
Record World : Type := mkWorld {
  cache : Cache;
  db : gmap string FlatBlock.t;
  env : Env;
  trace : list Event
}.

Definition record_event (e : Event) (w : World) : World :=
  mkWorld (cache w) (db w) (env w) (trace w ++ [e]).

Definition world_state (w : World) : State Cache Env :=
  mkState (cache w) (db w) (env w).

Definition with_state (x : State Cache Env) (w : World) : World :=
  mkWorld (st_cache x) (st_db x) (st_env x) (trace w).

(** State and exceptions; the state survives a raise. *)
Definition M (A : Type) : Type := World -> result A * World.

#[global] Instance M_ret : MRet M := fun A a w => (Ok a, w).
#[global] Instance M_bind : MBind M := fun A B k m w =>
  match m w with
  | (Ok a, w') => k a w'
  | (Raise e, w') => (Raise e, w')
  end.

Definition lift {A} (r : result A) : M A := fun w => (r, w).

(** A call into the framework, on the framework's state. *)
Definition host_call {A}
    (f : State Cache Env -> result A * State Cache Env) : M A :=
  fun w => let (r, x) := f (world_state w) in (r, with_state x w).

(** [try: body  except FlatBlock.DoesNotExist: handler] *)
Definition try_except_DoesNotExist {A} (body handler : M A) : M A :=
  fun w =>
    match body w with
    | (Raise e, w') =>
        if exn_is_DoesNotExist e then handler w' else (Raise e, w')
    | r => r
    end.

(** [cache.get(key)] *)
Definition cache_get_call (key : string) : M (option FlatBlock.t) :=
  fun w => (Ok (cache_get (cache w) key), record_event (CacheGet key) w).

(** [cache.set(key, b)] and [cache.set(key, b, seconds)] *)
Definition cache_set_call (key : string) (b : FlatBlock.t)
    (timeout : timeout_arg) : M unit :=
  fun w =>
    (Ok tt, mkWorld (cache_set (cache w) key b timeout) (db w) (env w)
              (trace w ++ [CacheSet key b timeout])).

(** [logger.debug(msg)] *)
Definition logger_debug (msg : log_msg) : M unit :=
  fun w => (Ok tt, record_event (LogDebug msg) w).

(** Modelled from the spec: [FlatBlock.objects.get(slug=slug)] on the
    key-value content store. What the backend does with a lookup value that
    is not a string is the host's. *)
Definition objects_get (slug : value) : M FlatBlock.t :=
  fun w =>
    match slug with
    | VStr s =>
        match db w !! s with
        | Some b => (Ok b, record_event (DbGet slug) w)
        | None => (Raise DoesNotExist, record_event (DbGet slug) w)
        end
    | _ => host_call (objects_get_other slug) (record_event (DbGet slug) w)
    end.

(** The record [get_or_create] inserts. *)
Definition created_block (slug default_content : string) : FlatBlock.t :=
  FlatBlock.mk slug default_header default_content None None.

(** Modelled from the spec: [FlatBlock.objects.get_or_create(slug=slug,
    defaults={'content': default_content})] on the key-value content
    store; the flag tells whether the record was created. *)
Definition objects_get_or_create (slug default_content : value)
    : M (FlatBlock.t * bool) :=
  fun w =>
    match slug, default_content with
    | VStr s, VStr c =>
        match db w !! s with
        | Some b =>
            (Ok (b, false), record_event (DbGetOrCreate slug default_content) w)
        | None =>
            let b := created_block s c in
            (Ok (b, true),
             mkWorld (cache w) (<[s := b]> (db w)) (env w)
               (trace w ++ [DbGetOrCreate slug default_content]))
        end
    | _, _ =>
        host_call (objects_get_or_create_other slug default_content)
          (record_event (DbGetOrCreate slug default_content) w)
    end.

(** [FlatBlockNode._evaluate] *)
Definition _evaluate (content : string) (context : RenderContext) : M string :=
  host_call (Template_render content context).

(** Lines 197-203: the datastore read, with or without auto-creation. *)
Definition fetch (self : Node.t) (real_slug : value) : M FlatBlock.t :=
  if Node.is_variable self || negb AUTOCREATE_STATIC_BLOCKS
  then objects_get real_slug
  else p ← objects_get_or_create real_slug real_slug; mret (fst p).

(** Lines 204-214: the cache write after a datastore read. *)
Definition store (self : Node.t) (real_slug : value) (cache_key : string)
    (flatblock : FlatBlock.t) : M unit :=
  if ct_nonzero (Node.cache_time self) then
    if ct_is_none (Node.cache_time self) then
      logger_debug (CachingDefaultMsg real_slug);;
      cache_set_call cache_key flatblock DefaultTimeout
    else
      logger_debug (CachingSecondsMsg real_slug (Node.cache_time self));;
      seconds ← lift (ct_int (Node.cache_time self));
      cache_set_call cache_key flatblock (Timeout seconds)
  else logger_debug (DontCacheMsg real_slug).

(** Lines 187-214: the cache read, the datastore read and the cache write.
    With [cache_time] 0 the source leaves [cache_key] unbound and never
    reads it. *)
Definition lookup (self : Node.t) (real_slug : value) : M FlatBlock.t :=
  p ← (if ct_nonzero (Node.cache_time self) then
         cache_key ← lift (str_add CACHE_PREFIX real_slug);
         flatblock ← cache_get_call cache_key;
         mret (cache_key, flatblock)
       else mret ("", None));
  match snd p with
  | Some b => mret b
  | None =>
      flatblock ← fetch self real_slug;
      store self real_slug (fst p) flatblock;;
      mret flatblock
  end.

(** Lines 216-220. *)
Definition evaluate_block (self : Node.t) (context : RenderContext)
    (flatblock : FlatBlock.t) : M FlatBlock.t :=
  if Node.evaluated self then
    let flatblock :=
      FlatBlock.set_raw_content (Some (FlatBlock.content flatblock)) flatblock in
    let flatblock :=
      FlatBlock.set_raw_header (Some (FlatBlock.header flatblock)) flatblock in
    content ← _evaluate (FlatBlock.content flatblock) context;
    let flatblock := FlatBlock.set_content content flatblock in
    header ← _evaluate (FlatBlock.header flatblock) context;
    mret (FlatBlock.set_header header flatblock)
  else mret flatblock.

(** Lines 173-176. *)
Definition real_slug (self : Node.t) (context : RenderContext) : result value :=
  if Node.is_variable self
  then Variable_resolve (Node.slug self) context
  else Ok (VStr (Node.slug self)).

(** Lines 177-180. *)
Definition real_template (self : Node.t) (context : RenderContext)
    : result value :=
  match Node.template_name self with
  | Node.TemplateVariable var => Variable_lookup var context
  | Node.TemplateName name => Ok (VStr name)
  end.

(** Lines 222-227. *)
Definition output (self : Node.t) (real_template : value)
    (new_ctx : RenderContext) (flatblock : FlatBlock.t) : M string :=
  if Node.with_template self then
    let new_ctx :=
      Context_update new_ctx {[ "flatblock" := VBlock flatblock ]} in
    host_call (loader_render real_template new_ctx)
  else mret (FlatBlock.content flatblock).

(** [FlatBlockNode.render(context)]. Without [with_template] the source
    leaves [new_ctx] unbound and never reads it. *)
Definition render (self : Node.t) (context : RenderContext) : M string :=
  real_slug ← lift (real_slug self context);
  real_template ← lift (real_template self context);
  let new_ctx :=
    if Node.with_template self
    then Context_update Context_new context
    else Context_new in
  try_except_DoesNotExist
    (flatblock ← lookup self real_slug;
     flatblock ← evaluate_block self context flatblock;
     output self real_template new_ctx flatblock)
    (mret "").

End Render.

(** ** A concrete interpreter and host

    An interpreter whose [int] accepts plain decimal literals only, a
    dictionary cache that ignores timeouts, variables looked up by name in
    the context and refused when they start with an underscore, and two
    template renderers that show what they were given and leave the state
    alone. *)
Module DictHost.

Definition python : Python.
Proof.
  refine {| py_int := fun s => match Py.int_ascii s with
                               | Some r => r
                               | None => None
                               end |}.
  intros s r Hs. rewrite Hs. reflexivity.
Defined.

Definition init (var : string) : result unit :=
  match var with
  | String "_"%char _ =>
      Raise (TemplateSyntaxError (OtherSyntaxMsg "underscore"))
  | _ => Ok tt
  end.

Definition resolve (var : string) (context : RenderContext) : result value :=
  match context !! var with
  | Some v => Ok v
  | None => Raise (HostError "VariableDoesNotExist")
  end.

Definition render_source {S : Type} (source : string)
    (context : RenderContext) (x : S) : result string * S :=
  (Ok ("<" ++ source ++ ">"), x).

Definition render_file {S : Type} (name : value) (context : RenderContext)
    (x : S) : result string * S :=
  match name with
  | VStr n =>
      match context !! "flatblock" with
      | Some (VBlock b) => (Ok (n ++ ":" ++ FlatBlock.content b), x)
      | _ => (Ok n, x)
      end
  | _ => (Raise (HostError "TemplateDoesNotExist"), x)
  end.

Definition host (autocreate : bool) : Host := {|
  CACHE_PREFIX := "flatblocks_";
  AUTOCREATE_STATIC_BLOCKS := autocreate;
  default_header := "";
  Cache := gmap string FlatBlock.t;
  Env := unit;
  cache_get := fun c key => c !! key;
  cache_set := fun c key b _ => <[key := b]> c;
  Variable_init := init;
  Variable_lookup := resolve;
  Template_render := render_source;
  loader_render := render_file;
  objects_get_other := fun _ x => (Raise DoesNotExist, x);
  objects_get_or_create_other := fun _ _ x => (Raise (HostError "IntegrityError"), x)
|}.

Definition help_block : FlatBlock.t :=
  FlatBlock.mk "help" "Help" "Call us" None None.

Definition help_world (autocreate : bool) : @World (host autocreate) :=
  @mkWorld (host autocreate) ∅ {[ "help" := help_block ]} tt [].

Definition page_context : RenderContext :=
  {[ "name" := VStr "help" ]} ∪ {[ "count" := VInt 42 ]}.

Definition default_template : string := "flatblocks/flatblock.html".

(** The node of the tag [flatblock 'help' 60]. *)
Definition cached_help : Node.t :=
  Node.mk (Node.TemplateName default_template) "help" false (CTInt 60) true false.

(** The node of the tag [flatblock 'faq']. *)
Definition literal_faq : Node.t :=
  Node.mk (Node.TemplateName default_template) "faq" false (CTInt 0) true false.

(** The node of the tag [flatblock 'help']. *)
Definition literal_help : Node.t :=
  Node.mk (Node.TemplateName default_template) "help" false (CTInt 0) true false.

(** The node of the tag [plain_flatblock 'help']. *)
Definition plain_help : Node.t :=
  Node.mk (Node.TemplateName default_template) "help" false (CTInt 0) false false.

(** The node of the tag [plain_flatblock 'help' evaluated]. *)
Definition plain_evaluated_help : Node.t :=
  Node.mk (Node.TemplateName default_template) "help" false (CTInt 0) false true.

(** The node of the tag [flatblock 'help' None]. *)
Definition none_help : Node.t :=
  Node.mk (Node.TemplateName default_template) "help" false (CTStr "None") true false.

(** The node of the tag [flatblock 'help' using 'box.html']. *)
Definition boxed_help : Node.t :=
  Node.mk (Node.TemplateName "box.html") "help" false (CTInt 0) true false.

(** The node of the tag [flatblock nothere]: a variable the page context
    does not bind. *)
Definition unbound_variable : Node.t :=
  Node.mk (Node.TemplateName default_template) "nothere" true (CTInt 0) true false.

(** The node of the tag [flatblock count 60]: a variable the page context
    binds to an integer. *)
Definition counted_variable : Node.t :=
  Node.mk (Node.TemplateName default_template) "count" true (CTInt 60) true false.

(** A node built directly with a timeout that [int] rejects. *)
Definition unconvertible_help : Node.t :=
  Node.mk (Node.TemplateName default_template) "help" false (CTStr "soon") true false.

(** The world after [lookup] of the uncached ['help']. *)
Definition help_world_read (autocreate : bool) : @World (host autocreate) :=
  @mkWorld (host autocreate) ∅ {[ "help" := help_block ]} tt
    [if autocreate then DbGetOrCreate (VStr "help") (VStr "help")
     else DbGet (VStr "help");
     LogDebug (DontCacheMsg (VStr "help"))].

End DictHost.

(** ** Reading the trace *)

Definition is_CacheGet (e : Event) : bool :=
  match e with CacheGet _ => true | _ => false end.

Definition is_CacheSet (e : Event) : bool :=
  match e with CacheSet _ _ _ => true | _ => false end.

(** A call on the datastore, of either kind. *)
Definition is_db_read (e : Event) : bool :=
  match e with DbGet _ | DbGetOrCreate _ _ => true | _ => false end.

(** The calls made between the world [w] and a later world [w']. *)
Definition calls_since `{H : Host} (w w' : World) : list Event :=
  drop (length (trace w)) (trace w').

(** The call [e] concerns the slug [s] (and the cache key derived from it). *)
Definition event_on_slug `{H : Host} (s : string) (e : Event) : Prop :=
  match e with
  | CacheGet key => key = CACHE_PREFIX ++ s
  | CacheSet key _ _ => key = CACHE_PREFIX ++ s
  | DbGet slug => slug = VStr s
  | DbGetOrCreate slug default_content =>
      slug = VStr s /\ default_content = VStr s
  | LogDebug (CachingDefaultMsg slug) => slug = VStr s
  | LogDebug (CachingSecondsMsg slug _) => slug = VStr s
  | LogDebug (DontCacheMsg slug) => slug = VStr s
  end.

(** A call into the framework that returns cache and datastore as it found
    them. *)
Definition keeps_stores `{H : Host} {A : Type}
    (f : State Cache Env -> result A * State Cache Env) : Prop :=
  forall x, st_cache (snd (f x)) = st_cache x /\ st_db (snd (f x)) = st_db x.

(** Both template renderings return cache and datastore as they found
    them: no template that is rendered writes to either. *)
Definition renderings_keep_stores `{H : Host} : Prop :=
  (forall source context, keeps_stores (Template_render source context))
  /\ (forall name context, keeps_stores (loader_render name context)).

(** The tag configurations as the docstring of [prepare] lists them, on the
    arguments after the slug: an optional timeout, then an optional
    [evaluated], then an optional [using] followed by a template name. *)
Definition documented_configuration (args : list string) : bool :=
  match args with
  | [] => true
  | [_] => true                                   (* timeout | evaluated *)
  | [a0; a1] =>
      String.eqb a0 "using"                       (* using tpl_name *)
      || String.eqb a1 "evaluated"                (* timeout evaluated *)
  | [_; a1; _] => String.eqb a1 "using"           (* timeout|evaluated using tpl_name *)
  | [_; a1; a2; _] =>
      String.eqb a1 "evaluated" && String.eqb a2 "using"
  | _ => false
  end.

(** Whether the arguments after the slug name a template (lines 92-117):
    two arguments of which the first is [using], or three or four
    arguments. *)
Definition names_template (tokens : list string) : bool :=
  match drop 2 tokens with
  | [a0; _] => String.eqb a0 "using"
  | [_; _; _] | [_; _; _; _] => true
  | _ => false
  end.

(** * Properties *)

Section ParserFacts.
Context `{P : Python}.

Implicit Types (tokens args : list string) (st : Wrapper.t).

Lemma append_cons c (s1 s2 : string) :
  String c s1 ++ s2 = String c (s1 ++ s2).
Proof. reflexivity. Qed.

Lemma last_cons c r : exists c', Py.last (String c r) = Ok c'.
Proof.
  revert c; induction r as [|d r IH]; intros c; simpl.
  - eauto.
  - destruct (IH d) as [c' Hc']. simpl in Hc'. eauto.
Qed.

Lemma last_drop_last c r q :
  Py.last (String c r) = Ok q ->
  String c r = Py.drop_last (String c r) ++ String q "".
Proof.
  revert c; induction r as [|d r IH]; intros c Hl.
  - simpl in *. injection Hl as ->. reflexivity.
  - change (Py.last (String c (String d r))) with (Py.last (String d r)) in Hl.
    change (Py.drop_last (String c (String d r)))
      with (String c (Py.drop_last (String d r))).
    rewrite append_cons. f_equal. exact (IH d Hl).
Qed.

(** A token whose first and last characters are [q] is [q] alone or [q],
    the slice [1:-1], [q]. *)
Lemma quoted_shape tok q :
  Py.first tok = Ok q -> Py.last tok = Ok q ->
  tok = String q "" /\ Py.slice_1_m1 tok = ""
  \/ tok = String q (Py.slice_1_m1 tok ++ String q "").
Proof.
  destruct tok as [|c r]; simpl; [discriminate|].
  intros Hf Hl. injection Hf as ->.
  destruct r as [|d r].
  - left; split; reflexivity.
  - right. f_equal. apply last_drop_last. exact Hl.
Qed.

Lemma not_quoted_false tok :
  not_quoted tok = Ok false <->
  exists q, Py.is_quote q = true /\ Py.first tok = Ok q /\ Py.last tok = Ok q.
Proof.
  unfold not_quoted, result_bind. split.
  - destruct (Py.first tok) as [c0|]; [|discriminate].
    destruct (Py.last tok) as [c1|]; [|discriminate].
    intros Hn. injection Hn as Hn. apply negb_false_iff, andb_true_iff in Hn.
    destruct Hn as [He Hq]. apply Ascii.eqb_eq in He. subst c1. eauto.
  - intros (q & Hq & -> & ->). rewrite Ascii.eqb_refl, Hq. reflexivity.
Qed.

Lemma not_quoted_total tok :
  tok <> "" -> exists nq, not_quoted tok = Ok nq.
Proof.
  destruct tok as [|c r]; [congruence|]. intros _.
  unfold not_quoted, result_bind. simpl Py.first.
  destruct (last_cons c r) as [c' ->]. eauto.
Qed.

(** The argument branch touches neither the slug nor [is_variable]. *)
Lemma parse_args_slug tag args st st' :
  parse_args tag args st = Ok st' ->
  Wrapper.slug st' = Wrapper.slug st
  /\ Wrapper.is_variable st' = Wrapper.is_variable st.
Proof.
  unfold parse_args.
  destruct args as [|a0 [|a1 [|a2 [|a3 [|a4 args]]]]]; intros Hp;
    repeat match type of Hp with
           | context [if ?c then _ else _] => destruct c
           end;
    try discriminate; injection Hp as <-; split; reflexivity.
Qed.

Lemma clean_tpl_name_slug st st' :
  clean_tpl_name st = Ok st' ->
  Wrapper.slug st' = Wrapper.slug st
  /\ Wrapper.is_variable st' = Wrapper.is_variable st
  /\ Wrapper.cache_time st' = Wrapper.cache_time st
  /\ Wrapper.evaluated st' = Wrapper.evaluated st.
Proof.
  unfold clean_tpl_name, result_bind.
  destruct (Wrapper.tpl_name st) as [name|].
  - destruct (not_quoted name) as [[|]|]; intros Hc; try discriminate;
      injection Hc as <-; repeat split; reflexivity.
  - intros Hc; injection Hc as <-; repeat split; reflexivity.
Qed.

Lemma convert_cache_time_inv st st' :
  convert_cache_time st = Ok st' ->
  Wrapper.slug st' = Wrapper.slug st
  /\ Wrapper.is_variable st' = Wrapper.is_variable st
  /\ Wrapper.tpl_name st' = Wrapper.tpl_name st
  /\ Wrapper.tpl_is_variable st' = Wrapper.tpl_is_variable st
  /\ Wrapper.evaluated st' = Wrapper.evaluated st
  /\ (Wrapper.cache_time st' = CTStr "None"
      \/ Wrapper.cache_time st' = CTNone
      \/ exists z, Wrapper.cache_time st' = CTInt z).
Proof.
  unfold convert_cache_time, result_bind.
  destruct (ct_is_none (Wrapper.cache_time st)) eqn:Hn; simpl.
  - intros Hc; injection Hc as <-. repeat split; try reflexivity.
    destruct (Wrapper.cache_time st) as [|z|x]; simpl in Hn; try discriminate.
    + auto.
    + apply String.eqb_eq in Hn. subst; auto.
  - destruct (ct_int (Wrapper.cache_time st)) as [z|]; [|discriminate].
    intros Hc; injection Hc as <-. repeat split; try reflexivity.
    right; right; eauto.
Qed.

(** What a successful [prepare] did with the slug token. *)
Lemma prepare_slug tokens st tok :
  prepare tokens = Ok st ->
  nth_error tokens 1 = Some tok ->
  exists nq, not_quoted tok = Ok nq
    /\ Wrapper.is_variable st = nq
    /\ Wrapper.slug st = if nq then tok else Py.slice_1_m1 tok.
Proof.
  unfold prepare, Py.index, result_bind.
  destruct tokens as [|tag [|tok' args]]; simpl; try discriminate.
  intros Hp Ht; injection Ht as ->.
  destruct (parse_args _ _ _) as [st1|] eqn:Hargs; [|discriminate].
  apply parse_args_slug in Hargs; simpl in Hargs; destruct Hargs as [Hs1 Hv1].
  unfold clean_slug, result_bind in Hp. rewrite Hs1 in Hp.
  destruct (not_quoted tok) as [nq|]; [|discriminate].
  exists nq; split; [reflexivity|].
  destruct nq;
    match type of Hp with
    | match clean_tpl_name ?x with _ => _ end = _ =>
        destruct (clean_tpl_name x) as [st3|] eqn:Htpl; [|discriminate];
        apply clean_tpl_name_slug in Htpl; simpl in Htpl;
        destruct Htpl as (Hs3 & Hv3 & _)
    end;
    apply convert_cache_time_inv in Hp; destruct Hp as (Hs4 & Hv4 & _);
    rewrite Hs4, Hv4, Hs3, Hv3, ?Hs1, ?Hv1; split; reflexivity.
Qed.

(** Which step of [prepare] raises what. *)
Lemma not_quoted_raise tok e : not_quoted tok = Raise e -> e = IndexError.
Proof.
  unfold not_quoted, result_bind.
  destruct tok as [|c r]; simpl; [congruence|].
  destruct (last_cons c r) as [c' Hc']. simpl in Hc'. rewrite Hc'. discriminate.
Qed.

Lemma parse_args_raise tag args st e :
  parse_args tag args st = Raise e ->
  e = TemplateSyntaxError (TwoArgumentsMsg tag) /\ length args = 2%nat
  \/ e = TemplateSyntaxError (ArgumentCountMsg tag) /\ (4 < length args)%nat.
Proof.
  unfold parse_args.
  destruct args as [|a0 [|a1 [|a2 [|a3 [|a4 args]]]]]; intros Hp;
    repeat match type of Hp with
           | context [if ?c then _ else _] => destruct c
           end;
    try discriminate; injection Hp as <-; simpl; [left|right]; split;
    try reflexivity; lia.
Qed.

Lemma clean_slug_raise st e : clean_slug st = Raise e -> e = IndexError.
Proof.
  unfold clean_slug, result_bind.
  destruct (not_quoted (Wrapper.slug st)) as [[|]|e'] eqn:Hn;
    try discriminate.
  intros He; injection He as <-. eapply not_quoted_raise; eassumption.
Qed.

Lemma clean_tpl_name_raise st e : clean_tpl_name st = Raise e -> e = IndexError.
Proof.
  unfold clean_tpl_name, result_bind.
  destruct (Wrapper.tpl_name st) as [name|]; [|discriminate].
  destruct (not_quoted name) as [[|]|e'] eqn:Hn; try discriminate.
  intros He; injection He as <-. eapply not_quoted_raise; eassumption.
Qed.

Lemma convert_cache_time_raise st e :
  convert_cache_time st = Raise e -> e = ValueError \/ e = TypeError.
Proof.
  unfold convert_cache_time, result_bind, ct_int.
  destruct (ct_is_none (Wrapper.cache_time st)); simpl; [discriminate|].
  destruct (Wrapper.cache_time st) as [|z|x]; try discriminate.
  - intros He; injection He as <-; auto.
  - destruct (py_int x); [discriminate|].
    intros He; injection He as <-; auto.
Qed.

(** The exceptions of [prepare]: TemplateSyntaxError comes from the
    two-argument branch or from more than four arguments, never from
    another argument count. *)
Lemma prepare_raise tokens e :
  prepare tokens = Raise e ->
  e = IndexError \/ e = ValueError \/ e = TypeError
  \/ (exists tag, e = TemplateSyntaxError (TwoArgumentsMsg tag)
                  /\ length tokens = 4%nat)
  \/ (exists tag, e = TemplateSyntaxError (ArgumentCountMsg tag)
                  /\ (6 < length tokens)%nat).
Proof.
  unfold prepare, Py.index, result_bind.
  destruct tokens as [|tag [|tok args]]; simpl nth_error; cbv iota;
    try (intros He; injection He as <-; auto).
  simpl drop.
  destruct (parse_args _ _ _) as [st1|e1] eqn:Hargs.
  - destruct (clean_slug st1) as [st2|e2] eqn:Hslug.
    + destruct (clean_tpl_name st2) as [st3|e3] eqn:Htpl.
      * intros Hc. apply convert_cache_time_raise in Hc. tauto.
      * intros He; injection He as <-.
        apply clean_tpl_name_raise in Htpl. auto.
    + intros He; injection He as <-. apply clean_slug_raise in Hslug. auto.
  - intros He; injection He as <-. apply parse_args_raise in Hargs.
    rewrite drop_0 in Hargs.
    destruct Hargs as [[-> Hlen]|[-> Hlen]].
    + right; right; right; left. exists tag. simpl. split; [reflexivity|lia].
    + right; right; right; right. exists tag. simpl. split; [reflexivity|lia].
Qed.

Lemma clean_slug_cache_time st st' :
  clean_slug st = Ok st' -> Wrapper.cache_time st' = Wrapper.cache_time st.
Proof.
  unfold clean_slug, result_bind.
  destruct (not_quoted (Wrapper.slug st)) as [[|]|]; intros Hc;
    try discriminate; injection Hc as <-; reflexivity.
Qed.

(** A timeout token 'None' reaches the wrapper unconverted. *)
Lemma prepare_None tag slug rest st :
  prepare (tag :: slug :: "None" :: rest) = Ok st ->
  Wrapper.cache_time st = CTStr "None".
Proof.
  unfold prepare, Py.index, result_bind. simpl nth_error. cbv iota.
  simpl drop.
  destruct (parse_args _ _ _) as [st1|] eqn:Hargs; [|discriminate].
  assert (H1 : Wrapper.cache_time st1 = CTStr "None").
  { unfold parse_args in Hargs.
    destruct rest as [|a1 [|a2 [|a3 [|a4 rest]]]]; simpl in Hargs;
      repeat match type of Hargs with
             | context [if ?c then _ else _] => destruct c
             end;
      try discriminate; injection Hargs as <-; reflexivity. }
  destruct (clean_slug st1) as [st2|] eqn:Hslug; [|discriminate].
  apply clean_slug_cache_time in Hslug.
  destruct (clean_tpl_name st2) as [st3|] eqn:Htpl; [|discriminate].
  apply clean_tpl_name_slug in Htpl. destruct Htpl as (_ & _ & Hct & _).
  unfold convert_cache_time. rewrite Hct, Hslug, H1. simpl.
  intros Hc; injection Hc as <-. congruence.
Qed.

Ltac unfold_prepare :=
  unfold prepare, Py.index, result_bind, parse_args, clean_slug,
    clean_tpl_name, convert_cache_time; simpl.

(** Every wrapper [prepare] returns has a timeout [render] can use: the
    string 'None' or an integer. *)
Lemma prepare_cache_time tokens st :
  prepare tokens = Ok st ->
  Wrapper.cache_time st = CTStr "None"
  \/ exists z, Wrapper.cache_time st = CTInt z.
Proof.
  unfold prepare, Py.index, result_bind.
  destruct (nth_error tokens 0) as [tag|]; [|discriminate].
  destruct (nth_error tokens 1) as [tok|]; [|discriminate].
  destruct (parse_args _ _ _) as [st1|] eqn:Hargs; [|discriminate].
  destruct (clean_slug st1) as [st2|] eqn:Hslug; [|discriminate].
  destruct (clean_tpl_name st2) as [st3|] eqn:Htpl; [|discriminate].
  intros Hc.
  assert (Hct : Wrapper.cache_time st3 <> CTNone).
  { apply clean_tpl_name_slug in Htpl. destruct Htpl as (_ & _ & -> & _).
    unfold clean_slug, result_bind in Hslug.
    destruct (not_quoted (Wrapper.slug st1)) as [[|]|]; try discriminate;
      injection Hslug as <-; simpl;
      unfold parse_args in Hargs;
      destruct (drop 2 tokens) as [|a0 [|a1 [|a2 [|a3 [|a4 args]]]]];
      repeat match type of Hargs with
             | context [if ?c then _ else _] => destruct c
             end;
      try discriminate; injection Hargs as <-; simpl; discriminate. }
  unfold convert_cache_time, result_bind in Hc.
  destruct (ct_is_none (Wrapper.cache_time st3)) eqn:Hn; simpl in Hc.
  - injection Hc as <-.
    destruct (Wrapper.cache_time st3) as [|z|x]; simpl in Hn;
      try discriminate; try congruence.
    apply String.eqb_eq in Hn. subst; auto.
  - destruct (ct_int (Wrapper.cache_time st3)) as [z|]; [|discriminate].
    injection Hc as <-. simpl. eauto.
Qed.

(** C7. With no argument after the slug, cache_time is 0 and evaluated is
    false. With one argument, the token 'evaluated' sets the flag and
    leaves cache_time at 0; any other token is taken as the timeout and
    leaves the flag unset: 'None' is kept as it is, a token the
    interpreter's int converts becomes that integer, and a token int
    rejects makes prepare raise ValueError. *)
Theorem one_argument_flag_or_timeout (tag slug a : string) :
  slug <> "" ->
  (exists st, prepare [tag; slug] = Ok st
     /\ Wrapper.cache_time st = CTInt 0 /\ Wrapper.evaluated st = false)
  /\ (exists st, prepare [tag; slug; "evaluated"] = Ok st
       /\ Wrapper.cache_time st = CTInt 0 /\ Wrapper.evaluated st = true)
  /\ (a <> "evaluated" ->
       if String.eqb a "None" then
         exists st, prepare [tag; slug; a] = Ok st
           /\ Wrapper.cache_time st = CTStr "None"
           /\ Wrapper.evaluated st = false
       else
         match py_int a with
         | Some z =>
             exists st, prepare [tag; slug; a] = Ok st
               /\ Wrapper.cache_time st = CTInt z
               /\ Wrapper.evaluated st = false
         | None => prepare [tag; slug; a] = Raise ValueError
         end).
Proof.
  intros Hslug. destruct (not_quoted_total slug Hslug) as [nq Hnq].
  split; [|split].
  - unfold_prepare. rewrite Hnq. destruct nq; simpl; eauto.
  - unfold_prepare. rewrite Hnq. destruct nq; simpl; eauto.
  - intros Ha. apply String.eqb_neq in Ha.
    unfold_prepare. rewrite Ha; simpl. rewrite Hnq.
    destruct nq; simpl;
      (destruct (String.eqb a "None") eqn:HN; simpl;
       [apply String.eqb_eq in HN; subst a; simpl; eauto
       |destruct (py_int a) as [z|]; simpl; eauto]).
Qed.

(** C10. [prepare] raises IndexError, not TemplateSyntaxError, on a token
    list without a slug; the argument-count error needs more than four
    arguments after the slug; and a timeout token that is not 'None' and
    that the interpreter's int rejects makes prepare raise ValueError, in
    each of the four argument shapes that carry a timeout. Among the plain
    ASCII tokens, int rejects exactly those that are not an optionally
    signed decimal literal. *)
Theorem prepare_not_total :
  (forall tokens, (length tokens < 2)%nat -> prepare tokens = Raise IndexError)
  /\ (forall tokens tag,
        prepare tokens = Raise (TemplateSyntaxError (ArgumentCountMsg tag)) ->
        (6 < length tokens)%nat)
  /\ (forall tag slug a a1 a2 a3,
        slug <> "" -> a <> "None" -> py_int a = None ->
        (a <> "evaluated" -> prepare [tag; slug; a] = Raise ValueError)
        /\ (a <> "using" ->
              prepare [tag; slug; a; "evaluated"] = Raise ValueError)
        /\ (a <> "evaluated" -> a2 <> "" ->
              prepare [tag; slug; a; a1; a2] = Raise ValueError)
        /\ (a3 <> "" ->
              prepare [tag; slug; a; a1; a2; a3] = Raise ValueError))
  /\ (forall tag slug a,
        slug <> "" -> a <> "evaluated" -> a <> "None" ->
        Py.int_ascii a = Some None ->
        prepare [tag; slug; a] = Raise ValueError)
  /\ prepare ["flatblock"] = Raise IndexError
  /\ prepare ["flatblock"; "'help'"; "soon"] = Raise ValueError.
Proof.
  split; [|split; [|split; [|split; [|split]]]].
  - intros [|tag [|tok args]] Hlen; simpl in Hlen; try lia; reflexivity.
  - intros tokens tag Hp. apply prepare_raise in Hp.
    destruct Hp as [Hp|[Hp|[Hp|[(t & Hp & _)|(t & _ & Hlen)]]]];
      try discriminate; exact Hlen.
  - intros tag slug a a1 a2 a3 Hslug HN Hint.
    destruct (not_quoted_total slug Hslug) as [nq Hnq].
    apply String.eqb_neq in HN.
    split; [|split; [|split]].
    + intros Hev. apply String.eqb_neq in Hev.
      unfold_prepare. rewrite Hev; simpl. rewrite Hnq.
      destruct nq; simpl; rewrite HN; simpl; rewrite Hint; reflexivity.
    + intros Hus. apply String.eqb_neq in Hus.
      unfold_prepare. rewrite Hus; simpl. rewrite Hnq.
      destruct nq; simpl; rewrite HN; simpl; rewrite Hint; reflexivity.
    + intros Hev H2. apply String.eqb_neq in Hev.
      destruct (not_quoted_total a2 H2) as [nq2 Hnq2].
      unfold_prepare. rewrite Hev; simpl. rewrite Hnq.
      destruct nq; simpl; rewrite Hnq2; destruct nq2; simpl;
        rewrite HN; simpl; rewrite Hint; reflexivity.
    + intros H3. destruct (not_quoted_total a3 H3) as [nq3 Hnq3].
      unfold_prepare. rewrite Hnq.
      destruct nq; simpl; rewrite Hnq3; destruct nq3; simpl;
        rewrite HN; simpl; rewrite Hint; reflexivity.
  - intros tag slug a Hslug Hev HN Hplain.
    pose proof (py_int_plain a None Hplain) as Hint.
    destruct (not_quoted_total slug Hslug) as [nq Hnq].
    apply String.eqb_neq in HN, Hev.
    unfold_prepare. rewrite Hev; simpl. rewrite Hnq.
    destruct nq; simpl; rewrite HN; simpl; rewrite Hint; reflexivity.
  - reflexivity.
  - unfold_prepare. rewrite (py_int_plain "soon" None eq_refl). reflexivity.
Qed.

(** C6. [prepare] accepts argument sequences outside the documented
    configurations: with three or four arguments after the slug the
    keyword positions are never compared with 'using' or 'evaluated',
    while the two-argument branch does raise TemplateSyntaxError for a
    missing keyword. *)
Theorem prepare_accepts_misplaced_keywords :
  documented_configuration ["10"; "bogus"; "'tpl.html'"] = false
  /\ prepare ["flatblock"; "'help'"; "10"; "bogus"; "'tpl.html'"]
     = Ok (Wrapper.mk false false "help" (CTInt 10) (Some "tpl.html") false)
  /\ documented_configuration ["10"; "foo"; "bar"; "'tpl.html'"] = false
  /\ prepare ["flatblock"; "'help'"; "10"; "foo"; "bar"; "'tpl.html'"]
     = Ok (Wrapper.mk false false "help" (CTInt 10) (Some "tpl.html") true)
  /\ documented_configuration ["10"; "bogus"] = false
  /\ prepare ["flatblock"; "'help'"; "10"; "bogus"]
     = Raise (TemplateSyntaxError (TwoArgumentsMsg "flatblock")).
Proof.
  repeat split; try reflexivity; unfold_prepare;
    rewrite (py_int_plain "10" (Some 10) eq_refl); reflexivity.
Qed.

End ParserFacts.

Section RenderFacts.
Context `{P : Python} `{H : Host}.

Implicit Types (self : Node.t) (context : RenderContext) (w : World).

Lemma calls_since_app w c d v (l : list Event) :
  calls_since w (mkWorld c d v (trace w ++ l)) = l.
Proof. unfold calls_since; simpl. apply drop_app_length. Qed.

Lemma calls_since_trace w w1 w2 :
  trace w1 = trace w2 -> calls_since w w1 = calls_since w w2.
Proof. unfold calls_since. intros ->. reflexivity. Qed.

(** The context the output template is rendered with. *)
Lemma new_ctx_insert context (b : FlatBlock.t) :
  Context_update (Context_update Context_new context)
    {[ "flatblock" := VBlock b ]}
  = <[ "flatblock" := VBlock b ]> context.
Proof.
  unfold Context_update, Context_new.
  rewrite (right_id_L ∅ (∪)). symmetry. apply insert_union_singleton_l.
Qed.

(** A call into the framework adds nothing to the calls of this node. *)
Lemma host_call_trace {A} (f : State Cache Env -> result A * State Cache Env) w :
  trace (snd (host_call f w)) = trace w.
Proof. unfold host_call. destruct (f (world_state w)); reflexivity. Qed.

Lemma evaluate_block_trace self context b w :
  trace (snd (evaluate_block self context b w)) = trace w.
Proof.
  unfold evaluate_block, _evaluate, mbind, M_bind, mret, M_ret.
  destruct (Node.evaluated self); [|reflexivity].
  pose proof (host_call_trace
                (Template_render
                   (FlatBlock.content
                      (FlatBlock.set_raw_header (Some (FlatBlock.header b))
                         (FlatBlock.set_raw_content
                            (Some (FlatBlock.content b)) b))) context) w) as H1.
  destruct (host_call _ w) as [[c|e] w1]; simpl in *; [|exact H1].
  rewrite <- H1.
  match goal with |- context [host_call ?f w1] =>
    pose proof (host_call_trace f w1) as H2;
    destruct (host_call f w1) as [[h|e] w2] end; simpl in *; exact H2.
Qed.

Lemma output_trace self t new_ctx b w :
  trace (snd (output self t new_ctx b w)) = trace w.
Proof.
  unfold output. destruct (Node.with_template self); [|reflexivity].
  apply host_call_trace.
Qed.

(** Once slug and template name are resolved, only the lookup step adds to
    the calls of the node. *)
Lemma render_trace self context w v t :
  real_slug self context = Ok v ->
  real_template self context = Ok t ->
  trace (snd (render self context w)) = trace (snd (lookup self v w)).
Proof.
  intros Hs Ht. unfold render, try_except_DoesNotExist, lift, mbind, M_bind.
  rewrite Hs, Ht; simpl.
  destruct (lookup self v w) as [[b|e] w1]; simpl.
  - pose proof (evaluate_block_trace self context b w1) as He.
    destruct (evaluate_block self context b w1) as [[b'|e] w2]; simpl in *.
    + rewrite <- He.
      match goal with |- context [output ?x1 ?x2 ?x3 ?x4 w2] =>
        pose proof (output_trace x1 x2 x3 x4 w2) as Ho;
        destruct (output x1 x2 x3 x4 w2) as [[o|e] w3] end; simpl in *.
      * exact Ho.
      * destruct (exn_is_DoesNotExist e); exact Ho.
    + destruct (exn_is_DoesNotExist e); exact He.
  - destruct (exn_is_DoesNotExist e); reflexivity.
Qed.

Lemma render_calls self context w v t :
  real_slug self context = Ok v ->
  real_template self context = Ok t ->
  calls_since w (snd (render self context w))
  = calls_since w (snd (lookup self v w)).
Proof. intros Hs Ht. apply calls_since_trace, (render_trace _ _ _ _ _ Hs Ht). Qed.

(** A render that finds its record, evaluates it and renders it. *)
Lemma render_found self context w v t b w1 b' w2 out w3 :
  real_slug self context = Ok v ->
  real_template self context = Ok t ->
  lookup self v w = (Ok b, w1) ->
  evaluate_block self context b w1 = (Ok b', w2) ->
  output self t
    (if Node.with_template self then Context_update Context_new context
     else Context_new) b' w2 = (Ok out, w3) ->
  render self context w = (Ok out, w3).
Proof.
  intros Hs Ht Hl He Ho.
  unfold render, try_except_DoesNotExist, lift, mbind, M_bind.
  rewrite Hs, Ht; simpl. rewrite Hl; simpl. rewrite He; simpl.
  rewrite Ho. reflexivity.
Qed.

(** A render whose lookup raises DoesNotExist returns the empty string. *)
Lemma render_not_found self context w v t w1 :
  real_slug self context = Ok v ->
  real_template self context = Ok t ->
  lookup self v w = (Raise DoesNotExist, w1) ->
  render self context w = (Ok "", w1).
Proof.
  intros Hs Ht Hl.
  unfold render, try_except_DoesNotExist, lift, mbind, M_bind.
  rewrite Hs, Ht; simpl. rewrite Hl; reflexivity.
Qed.

(** What a rendering that keeps the stores leaves of a world. *)
Lemma host_call_keeps {A} (f : State Cache Env -> result A * State Cache Env) w :
  keeps_stores f ->
  cache (snd (host_call f w)) = cache w /\ db (snd (host_call f w)) = db w.
Proof.
  intros Hk. unfold host_call. specialize (Hk (world_state w)).
  destruct (f (world_state w)) as [r x]; simpl in *. exact Hk.
Qed.

Lemma evaluate_block_keeps self context b w :
  renderings_keep_stores ->
  cache (snd (evaluate_block self context b w)) = cache w
  /\ db (snd (evaluate_block self context b w)) = db w.
Proof.
  intros [Hk _].
  unfold evaluate_block, _evaluate, mbind, M_bind, mret, M_ret.
  destruct (Node.evaluated self); [|auto].
  match goal with |- context [host_call ?f w] =>
    pose proof (host_call_keeps f w (Hk _ _)) as [Hc1 Hd1];
    destruct (host_call f w) as [[c|e] w1] end; simpl in *; [|auto].
  rewrite <- Hc1, <- Hd1.
  match goal with |- context [host_call ?f w1] =>
    pose proof (host_call_keeps f w1 (Hk _ _)) as [Hc2 Hd2];
    destruct (host_call f w1) as [[h|e] w2] end; simpl in *; auto.
Qed.

Lemma output_keeps self t new_ctx b w :
  renderings_keep_stores ->
  cache (snd (output self t new_ctx b w)) = cache w
  /\ db (snd (output self t new_ctx b w)) = db w.
Proof.
  intros [_ Hk]. unfold output.
  destruct (Node.with_template self); [|auto].
  apply host_call_keeps, Hk.
Qed.

(** With renderings that keep the stores, cache and datastore after a
    render are those the lookup step left. *)
Lemma render_keeps self context w v t :
  renderings_keep_stores ->
  real_slug self context = Ok v ->
  real_template self context = Ok t ->
  cache (snd (render self context w)) = cache (snd (lookup self v w))
  /\ db (snd (render self context w)) = db (snd (lookup self v w)).
Proof.
  intros Hk Hs Ht. unfold render, try_except_DoesNotExist, lift, mbind, M_bind.
  rewrite Hs, Ht; simpl.
  destruct (lookup self v w) as [[b|e] w1]; simpl.
  - pose proof (evaluate_block_keeps self context b w1 Hk) as [Hc1 Hd1].
    destruct (evaluate_block self context b w1) as [[b'|e] w2]; simpl in *.
    + rewrite <- Hc1, <- Hd1.
      match goal with |- context [output ?x1 ?x2 ?x3 ?x4 w2] =>
        pose proof (output_keeps x1 x2 x3 x4 w2 Hk) as [Hc2 Hd2];
        destruct (output x1 x2 x3 x4 w2) as [[o|e] w3] end; simpl in *.
      * auto.
      * destruct (exn_is_DoesNotExist e); auto.
    + destruct (exn_is_DoesNotExist e); auto.
  - destruct (exn_is_DoesNotExist e); auto.
Qed.

Ltac unfold_M :=
  unfold lookup, fetch, store, objects_get, objects_get_or_create,
    cache_get_call, cache_set_call, logger_debug, lift, record_event,
    str_add, mbind, M_bind, mret, M_ret in *.

Ltac calls_norm :=
  unfold calls_since; simpl;
  repeat rewrite <- app_assoc; rewrite ?drop_app_length; simpl.


(** Every call of a render concerns the resolved slug. *)
Lemma render_calls_on_slug self context w s t :
  real_slug self context = Ok (VStr s) ->
  real_template self context = Ok t ->
  Forall (event_on_slug s) (calls_since w (snd (render self context w))).
Proof.
  intros Hs Ht. rewrite (render_calls _ _ _ _ _ Hs Ht).
  unfold_M.
  destruct (ct_nonzero (Node.cache_time self)); simpl;
    try destruct (cache_get (cache w) (CACHE_PREFIX ++ s)); simpl;
    try (calls_norm; repeat constructor; fail);
    destruct (Node.is_variable self || negb AUTOCREATE_STATIC_BLOCKS);
    simpl; destruct (db w !! s); simpl;
    try destruct (ct_is_none (Node.cache_time self)); simpl;
    try destruct (ct_int (Node.cache_time self)); simpl;
    calls_norm; repeat constructor.
Qed.

(** A render whose slug does not resolve raises before any call. *)
Lemma render_slug_raise self context w e :
  real_slug self context = Raise e ->
  render self context w = (Raise e, w).
Proof.
  intros Hs. unfold render, lift, mbind, M_bind. rewrite Hs. reflexivity.
Qed.

(** The lookup of a record that is in neither store and is not created. *)
Lemma lookup_not_found self w s :
  ct_nonzero (Node.cache_time self) = false
    \/ cache_get (cache w) (CACHE_PREFIX ++ s) = None ->
  db w !! s = None ->
  Node.is_variable self || negb AUTOCREATE_STATIC_BLOCKS = true ->
  exists l, lookup self (VStr s) w
      = (Raise DoesNotExist, mkWorld (cache w) (db w) (env w) (trace w ++ l))
    /\ List.filter is_CacheSet l = []
    /\ List.filter is_db_read l = [DbGet (VStr s)].
Proof.
  intros Hmiss Hdb Hf. unfold_M. rewrite Hf.
  destruct (ct_nonzero (Node.cache_time self)); simpl.
  - destruct Hmiss as [?|Hmiss]; [discriminate|]. rewrite Hmiss; simpl.
    rewrite Hdb. rewrite <- app_assoc. eexists; repeat split; reflexivity.
  - rewrite Hdb. eexists; repeat split; reflexivity.
Qed.

(** The lookup of a record that is in neither store and is created. *)
Lemma lookup_created self w s :
  ct_nonzero (Node.cache_time self) = false
    \/ cache_get (cache w) (CACHE_PREFIX ++ s) = None ->
  db w !! s = None ->
  Node.is_variable self || negb AUTOCREATE_STATIC_BLOCKS = false ->
  exists c l, snd (lookup self (VStr s) w)
      = mkWorld c (<[s := created_block s s]> (db w)) (env w) (trace w ++ l)
    /\ List.filter is_db_read l = [DbGetOrCreate (VStr s) (VStr s)].
Proof.
  intros Hmiss Hdb Hf. unfold_M. rewrite Hf.
  destruct (ct_nonzero (Node.cache_time self)); simpl.
  - destruct Hmiss as [?|Hmiss]; [discriminate|]. rewrite Hmiss; simpl.
    rewrite Hdb; simpl.
    destruct (ct_is_none (Node.cache_time self)); simpl;
      try destruct (ct_int (Node.cache_time self)); simpl;
      repeat rewrite <- app_assoc; do 2 eexists; split; reflexivity.
  - rewrite Hdb; simpl. repeat rewrite <- app_assoc.
    do 2 eexists; split; reflexivity.
Qed.

(** C2. When a render reads the datastore and the record is missing, the
    record exists once the lookup step is over exactly when the slug is a
    literal and AUTOCREATE_STATIC_BLOCKS is on; the created record has the
    slug as its content and is what the read returns; with a variable slug
    or the setting off the read is a plain get that raises DoesNotExist,
    nothing is created, and the render returns the empty string. Where the
    templates rendered afterwards leave the datastore alone, this is also
    the datastore the render leaves. *)
Theorem datastore_autocreate self context w s t :
  real_slug self context = Ok (VStr s) ->
  real_template self context = Ok t ->
  ct_nonzero (Node.cache_time self) = false
    \/ cache_get (cache w) (CACHE_PREFIX ++ s) = None ->
  db w !! s = None ->
  let w1 := snd (lookup self (VStr s) w) in
  let w' := snd (render self context w) in
  let calls := calls_since w w' in
  (is_Some (db w1 !! s) <->
     Node.is_variable self = false /\ AUTOCREATE_STATIC_BLOCKS = true)
  /\ (Node.is_variable self = false -> AUTOCREATE_STATIC_BLOCKS = true ->
        db w1 = <[s := created_block s s]> (db w)
        /\ FlatBlock.content (created_block s s) = s
        /\ fst (fetch self (VStr s) w) = Ok (created_block s s)
        /\ List.filter is_db_read calls = [DbGetOrCreate (VStr s) (VStr s)])
  /\ (Node.is_variable self = true \/ AUTOCREATE_STATIC_BLOCKS = false ->
        db w' = db w
        /\ fst (fetch self (VStr s) w) = Raise DoesNotExist
        /\ List.filter is_db_read calls = [DbGet (VStr s)]
        /\ fst (render self context w) = Ok "")
  /\ (renderings_keep_stores -> db w' = db w1).
Proof.
  intros Hs Ht Hmiss Hdb w1 w' calls. subst calls w' w1.
  assert (Hfetch : fetch self (VStr s) w
    = if Node.is_variable self || negb AUTOCREATE_STATIC_BLOCKS
      then (Raise DoesNotExist, record_event (DbGet (VStr s)) w)
      else (Ok (created_block s s),
            mkWorld (cache w) (<[s := created_block s s]> (db w)) (env w)
              (trace w ++ [DbGetOrCreate (VStr s) (VStr s)]))).
  { unfold_M. destruct (_ || _); simpl; rewrite Hdb; reflexivity. }
  split; [|split; [|split]];
    [| | |intros Hk; apply (render_keeps _ _ _ _ _ Hk Hs Ht)];
    destruct (Node.is_variable self || negb AUTOCREATE_STATIC_BLOCKS) eqn:Hf.
  - destruct (lookup_not_found self w s Hmiss Hdb Hf) as (l & Hl & _ & _).
    rewrite Hl; simpl. rewrite Hdb.
    apply orb_true_iff in Hf. rewrite negb_true_iff in Hf.
    split; [intros [x Hx]; discriminate|].
    intros [Hv Ha]. destruct Hf; congruence.
  - destruct (lookup_created self w s Hmiss Hdb Hf) as (c & l & Hw & _).
    rewrite Hw; simpl. rewrite lookup_insert_eq.
    apply orb_false_iff in Hf. rewrite negb_false_iff in Hf.
    split; eauto.
  - apply orb_true_iff in Hf. rewrite negb_true_iff in Hf.
    intros Hv Ha. destruct Hf; congruence.
  - destruct (lookup_created self w s Hmiss Hdb Hf) as (c & l & Hw & Hreads).
    rewrite (render_calls _ _ _ _ _ Hs Ht), Hw, Hfetch. simpl.
    unfold calls_since; simpl. rewrite drop_app_length. auto.
  - destruct (lookup_not_found self w s Hmiss Hdb Hf) as (l & Hl & _ & Hreads).
    rewrite (render_not_found _ _ _ _ _ _ Hs Ht Hl). simpl.
    rewrite calls_since_app, Hfetch. auto.
  - apply orb_false_iff in Hf. rewrite negb_false_iff in Hf.
    intros [?|?]; destruct Hf; congruence.
Qed.

(** C8. When the record is neither in the cache nor in the datastore and
    is not auto-created, render returns the empty string, raises nothing,
    leaves cache and datastore as they were and makes no cache.set call. *)
Theorem render_missing_record self context w s t :
  real_slug self context = Ok (VStr s) ->
  real_template self context = Ok t ->
  ct_nonzero (Node.cache_time self) = false
    \/ cache_get (cache w) (CACHE_PREFIX ++ s) = None ->
  db w !! s = None ->
  Node.is_variable self = true \/ AUTOCREATE_STATIC_BLOCKS = false ->
  let r := render self context w in
  fst r = Ok ""
  /\ cache (snd r) = cache w
  /\ db (snd r) = db w
  /\ List.filter is_CacheSet (calls_since w (snd r)) = [].
Proof.
  intros Hs Ht Hmiss Hdb Hno r.
  assert (Hf : Node.is_variable self || negb AUTOCREATE_STATIC_BLOCKS = true).
  { destruct Hno as [-> | ->]; [reflexivity|apply orb_true_r]. }
  destruct (lookup_not_found self w s Hmiss Hdb Hf) as (l & Hl & Hsets & _).
  subst r.
  rewrite (render_not_found _ _ _ _ _ _ Hs Ht Hl). simpl.
  rewrite calls_since_app. auto.
Qed.

(** The node either tag builds from a parsed wrapper carries the wrapper's
    slug and [is_variable]. *)
Lemma tag_node_slug tokens st n :
  prepare tokens = Ok st ->
  do_get_flatblock tokens = Ok n \/ do_plain_flatblock tokens = Ok n ->
  Node.slug n = Wrapper.slug st
  /\ Node.is_variable n = Wrapper.is_variable st
  /\ Node.cache_time n = Wrapper.cache_time st
  /\ Node.evaluated n = Wrapper.evaluated st.
Proof.
  unfold do_get_flatblock, do_plain_flatblock, FlatBlockNode, result_bind.
  intros ->. intros [Hn|Hn].
  - destruct (Wrapper.tpl_name st) as [name|];
      [destruct (Wrapper.tpl_is_variable st);
       [destruct (Variable_init name); [|discriminate]|]|];
      injection Hn as <-; repeat split; reflexivity.
  - injection Hn as <-; repeat split; reflexivity.
Qed.

(** C3. For the slug token of a successful parse: if its first and last
    characters are one and the same quote character, the slug is a literal,
    namely the token without its first and last character (empty for a
    token that is a lone quote), and render looks that literal up;
    otherwise the token is kept as a variable name and render looks up what
    the variable resolves to in the context, raising what the resolution
    raises. Every cache and datastore call of the render is on the slug so
    obtained. *)
Theorem slug_literal_or_variable tokens st tok n context w :
  prepare tokens = Ok st ->
  nth_error tokens 1 = Some tok ->
  do_get_flatblock tokens = Ok n \/ do_plain_flatblock tokens = Ok n ->
  ((exists q, Py.is_quote q = true /\ Py.first tok = Ok q /\ Py.last tok = Ok q) ->
     Node.is_variable n = false
     /\ Node.slug n = Py.slice_1_m1 tok
     /\ (exists q, Py.is_quote q = true
           /\ (tok = String q (Node.slug n ++ String q "")
               \/ tok = String q "" /\ Node.slug n = ""))
     /\ real_slug n context = Ok (VStr (Node.slug n)))
  /\ (~ (exists q, Py.is_quote q = true /\ Py.first tok = Ok q /\ Py.last tok = Ok q) ->
       Node.is_variable n = true
       /\ Node.slug n = tok
       /\ real_slug n context = Variable_resolve tok context)
  /\ (forall e, real_slug n context = Raise e ->
         render n context w = (Raise e, w))
  /\ (forall s t, real_slug n context = Ok (VStr s) ->
         real_template n context = Ok t ->
         Forall (event_on_slug s) (calls_since w (snd (render n context w)))).
Proof.
  intros Hp Htok Hn.
  destruct (tag_node_slug _ _ _ Hp Hn) as (Hslug & Hvar & _).
  destruct (prepare_slug _ _ _ Hp Htok) as (nq & Hnq & Hv & Hs).
  rewrite <- Hslug in Hs. rewrite <- Hvar in Hv.
  split; [|split; [|split]].
  - intros Hq. pose proof (proj2 (not_quoted_false tok) Hq) as Hfalse.
    rewrite Hnq in Hfalse. injection Hfalse as ->.
    unfold real_slug. rewrite Hv. repeat split; auto.
    destruct Hq as (q & Hq & Hf & Hl). exists q; split; [exact Hq|].
    rewrite Hs.
    destruct (quoted_shape tok q Hf Hl) as [[-> Hsl]|Hsh]; auto.
  - intros Hnot. destruct nq.
    + unfold real_slug. rewrite Hv, Hs. auto.
    + exfalso. apply Hnot. apply not_quoted_false. exact Hnq.
  - intros e. apply render_slug_raise.
  - intros s t. apply render_calls_on_slug.
Qed.

(** C4. For a render that has its record: with the evaluated flag set, the
    record that is output carries the content and the header rendered as
    templates, content first, against the render context, and the values
    they had before as raw_content and raw_header; with the flag unset the
    record is output as it was found and no template is evaluated. The
    state the two evaluations leave is the state the output starts from. *)
Theorem render_evaluated self context w s t b w1 :
  real_slug self context = Ok (VStr s) ->
  real_template self context = Ok t ->
  lookup self (VStr s) w = (Ok b, w1) ->
  (Node.evaluated self = true ->
     forall c x1 h x2,
       Template_render (FlatBlock.content b) context (world_state w1)
         = (Ok c, x1) ->
       Template_render (FlatBlock.header b) context x1 = (Ok h, x2) ->
       let b' := FlatBlock.mk (FlatBlock.slug b) h c
                   (Some (FlatBlock.content b)) (Some (FlatBlock.header b)) in
       evaluate_block self context b w1 = (Ok b', with_state x2 w1)
       /\ (Node.with_template self = false ->
             render self context w = (Ok c, with_state x2 w1))
       /\ (Node.with_template self = true ->
             forall out x3,
               loader_render t (<[ "flatblock" := VBlock b' ]> context) x2
                 = (Ok out, x3) ->
               render self context w = (Ok out, with_state x3 w1)))
  /\ (Node.evaluated self = false ->
       evaluate_block self context b w1 = (Ok b, w1)
       /\ (Node.with_template self = false ->
             render self context w = (Ok (FlatBlock.content b), w1))
       /\ (Node.with_template self = true ->
             forall out x3,
               loader_render t (<[ "flatblock" := VBlock b ]> context)
                 (world_state w1) = (Ok out, x3) ->
               render self context w = (Ok out, with_state x3 w1))).
Proof.
  intros Hs Ht Hl. split.
  - intros Hev c x1 h x2 Hc Hh b'.
    assert (He : evaluate_block self context b w1 = (Ok b', with_state x2 w1)).
    { unfold evaluate_block, _evaluate, host_call, mbind, M_bind, mret, M_ret.
      rewrite Hev; simpl. rewrite Hc; simpl.
      change (world_state (with_state x1 w1)) with
        (mkState (st_cache x1) (st_db x1) (st_env x1)).
      destruct x1 as [c1 d1 v1]; simpl. rewrite Hh. reflexivity. }
    split; [exact He|]. split.
    + intros Hwt. apply (render_found _ _ _ _ _ _ _ _ _ _ _ Hs Ht Hl He).
      unfold output. rewrite Hwt. reflexivity.
    + intros Hwt out x3 Ho.
      apply (render_found _ _ _ _ _ _ _ _ _ _ _ Hs Ht Hl He).
      unfold output, host_call. rewrite Hwt, new_ctx_insert.
      change (world_state (with_state x2 w1)) with
        (mkState (st_cache x2) (st_db x2) (st_env x2)).
      destruct x2 as [c2 d2 v2]; simpl in *. rewrite Ho. reflexivity.
  - intros Hev.
    assert (He : evaluate_block self context b w1 = (Ok b, w1)).
    { unfold evaluate_block. rewrite Hev. reflexivity. }
    split; [exact He|]. split.
    + intros Hwt. apply (render_found _ _ _ _ _ _ _ _ _ _ _ Hs Ht Hl He).
      unfold output. rewrite Hwt. reflexivity.
    + intros Hwt out x3 Ho.
      apply (render_found _ _ _ _ _ _ _ _ _ _ _ Hs Ht Hl He).
      unfold output, host_call. rewrite Hwt, new_ctx_insert, Ho. reflexivity.
Qed.

(** Where a node built by the flatblock tag names its template by a
    variable, the variable was constructed. *)
Lemma flatblock_node_template tokens st n :
  prepare tokens = Ok st ->
  do_get_flatblock tokens = Ok n ->
  Node.with_template n = true
  /\ match Wrapper.tpl_name st with
     | None =>
         Node.template_name n = Node.TemplateName "flatblocks/flatblock.html"
     | Some name =>
         if Wrapper.tpl_is_variable st
         then Node.template_name n = Node.TemplateVariable name
              /\ Variable_init name = Ok tt
         else Node.template_name n = Node.TemplateName name
     end.
Proof.
  unfold do_get_flatblock, FlatBlockNode, result_bind. intros ->.
  destruct (Wrapper.tpl_name st) as [name|];
    [destruct (Wrapper.tpl_is_variable st);
     [destruct (Variable_init name) as [[]|] eqn:Hi; [|discriminate]|]|];
    intros Hn; injection Hn as <-; auto.
Qed.

(** C5. For a render that has its record, evaluated or not: with
    with_template the result is the output template, named by the node's
    template name, rendered over the context with the record bound to
    'flatblock', and a successful render returns nothing else unless that
    rendering itself raises DoesNotExist; without with_template the result
    is the content of the record. The flatblock tag renders with the
    parsed template name, or flatblocks/flatblock.html when there is none;
    the plain_flatblock tag renders without a template. *)
Theorem render_output self context w s t b w1 b' w2 :
  real_slug self context = Ok (VStr s) ->
  real_template self context = Ok t ->
  lookup self (VStr s) w = (Ok b, w1) ->
  evaluate_block self context b w1 = (Ok b', w2) ->
  (Node.with_template self = true ->
     forall out x3,
       loader_render t (<[ "flatblock" := VBlock b' ]> context) (world_state w2)
         = (Ok out, x3) ->
       render self context w = (Ok out, with_state x3 w2))
  /\ (Node.with_template self = true ->
       forall out w',
         render self context w = (Ok out, w') ->
         exists x3,
           loader_render t (<[ "flatblock" := VBlock b' ]> context)
             (world_state w2) = (Ok out, x3)
           \/ (loader_render t (<[ "flatblock" := VBlock b' ]> context)
                 (world_state w2) = (Raise DoesNotExist, x3) /\ out = ""))
  /\ (Node.with_template self = false ->
       render self context w = (Ok (FlatBlock.content b'), w2))
  /\ (forall tokens st n,
        prepare tokens = Ok st -> do_get_flatblock tokens = Ok n ->
        Node.with_template n = true
        /\ real_template n context
           = match Wrapper.tpl_name st with
             | None => Ok (VStr "flatblocks/flatblock.html")
             | Some name =>
                 if Wrapper.tpl_is_variable st
                 then Variable_resolve name context
                 else Ok (VStr name)
             end)
  /\ (forall tokens n,
        do_plain_flatblock tokens = Ok n ->
        Node.with_template n = false
        /\ real_template n context = Ok (VStr "flatblocks/flatblock.html")).
Proof.
  intros Hs Ht Hl He. split; [|split; [|split; [|split]]].
  - intros Hwt out x3 Ho.
    apply (render_found _ _ _ _ _ _ _ _ _ _ _ Hs Ht Hl He).
    unfold output, host_call. rewrite Hwt, new_ctx_insert, Ho. reflexivity.
  - intros Hwt out w'.
    unfold render, try_except_DoesNotExist, lift, mbind, M_bind.
    rewrite Hs, Ht; simpl. rewrite Hl; simpl. rewrite He; simpl.
    unfold output, host_call. rewrite Hwt, new_ctx_insert.
    destruct (loader_render t _ _) as [[o|e] x3]; simpl.
    + intros Hr; injection Hr as <- _. eauto.
    + destruct e; simpl; try discriminate.
      intros Hr; injection Hr as <- _. eauto.
  - intros Hwt. apply (render_found _ _ _ _ _ _ _ _ _ _ _ Hs Ht Hl He).
    unfold output. rewrite Hwt. reflexivity.
  - intros tokens st n Hp Hn.
    destruct (flatblock_node_template _ _ _ Hp Hn) as [Hwt Htn].
    split; [exact Hwt|]. unfold real_template.
    destruct (Wrapper.tpl_name st) as [name|]; [|rewrite Htn; reflexivity].
    destruct (Wrapper.tpl_is_variable st); [|rewrite Htn; reflexivity].
    destruct Htn as [-> Hi]. unfold Variable_resolve. rewrite Hi. reflexivity.
  - intros tokens n. unfold do_plain_flatblock, FlatBlockNode, result_bind.
    destruct (prepare tokens); [|discriminate].
    intros Hn; injection Hn as <-. auto.
Qed.

(** C9. A timeout token 'None' is left as it is by the conversion at the
    end of prepare and reaches the node as the string 'None'. For a node
    whose cache_time is None or 'None', a render reads the cache and, after
    a cache miss and a datastore read that yields a record, calls cache.set
    on that record without a timeout. For any other cache_time that is not
    0 and that int converts, cache.set gets the converted integer. *)
Theorem none_timeout_uses_default self context w s t b :
  real_slug self context = Ok (VStr s) ->
  real_template self context = Ok t ->
  cache_get (cache w) (CACHE_PREFIX ++ s) = None ->
  fst (fetch self (VStr s) w) = Ok b ->
  let ct := Node.cache_time self in
  let key := CACHE_PREFIX ++ s in
  let calls := calls_since w (snd (render self context w)) in
  (ct_is_none ct = true ->
     List.filter is_CacheGet calls = [CacheGet key]
     /\ List.filter is_CacheSet calls = [CacheSet key b DefaultTimeout])
  /\ (ct_is_none ct = false -> ct_nonzero ct = true ->
       forall z, ct_int ct = Ok z ->
         List.filter is_CacheGet calls = [CacheGet key]
         /\ List.filter is_CacheSet calls = [CacheSet key b (Timeout z)])
  /\ (forall st, ct_is_none (Wrapper.cache_time st) = true ->
         convert_cache_time st = Ok st)
  /\ (forall tag slug rest n,
         do_get_flatblock (tag :: slug :: "None" :: rest) = Ok n
         \/ do_plain_flatblock (tag :: slug :: "None" :: rest) = Ok n ->
         Node.cache_time n = CTStr "None").
Proof.
  intros Hs Ht Hmiss Hb ct key calls. subst calls key ct.
  rewrite (render_calls _ _ _ _ _ Hs Ht).
  split; [|split; [|split]].
  - intros Hnone.
    assert (Hnz : ct_nonzero (Node.cache_time self) = true).
    { destruct (Node.cache_time self); simpl in *; congruence. }
    revert Hb. unfold_M. rewrite Hnz, Hnone; simpl. rewrite Hmiss; simpl.
    destruct (Node.is_variable self || negb AUTOCREATE_STATIC_BLOCKS); simpl;
      destruct (db w !! s); simpl; intros Hb; try discriminate;
      injection Hb as <-; calls_norm; auto.
  - intros Hnone Hnz z Hz.
    revert Hb. unfold_M. rewrite Hnz, Hnone, Hz; simpl. rewrite Hmiss; simpl.
    destruct (Node.is_variable self || negb AUTOCREATE_STATIC_BLOCKS); simpl;
      destruct (db w !! s); simpl; intros Hb; try discriminate;
      injection Hb as <-; calls_norm; auto.
  - intros st Hn. unfold convert_cache_time. rewrite Hn. reflexivity.
  - intros tag slug rest n Hn.
    destruct (prepare (tag :: slug :: "None" :: rest)) as [st|] eqn:Hp.
    + destruct (tag_node_slug _ _ _ Hp Hn) as (_ & _ & -> & _).
      eapply prepare_None; eassumption.
    + unfold do_get_flatblock, do_plain_flatblock in Hn. rewrite Hp in Hn.
      destruct Hn; discriminate.
Qed.

End RenderFacts.

(** * Further properties of the parser *)

Section ParserExtras.
Context `{P : Python} `{H : Host}.

Implicit Types (tokens args : list string) (st : Wrapper.t).

Lemma last_append_quote (s : string) q : Py.last (s ++ String q "") = Ok q.
Proof.
  induction s as [|c s IH]; [reflexivity|].
  change (String c s ++ String q "") with (String c (s ++ String q "")).
  destruct (s ++ String q "") eqn:Hs; [destruct s; discriminate|].
  exact IH.
Qed.

Lemma drop_last_append_quote (s : string) q :
  Py.drop_last (s ++ String q "") = s.
Proof.
  induction s as [|c s IH]; [reflexivity|].
  change (String c s ++ String q "") with (String c (s ++ String q "")).
  destruct (s ++ String q "") eqn:Hs; [destruct s; discriminate|].
  simpl. f_equal. exact IH.
Qed.

(** When the argument branch raises. *)
Lemma parse_args_raise_iff tag args st e :
  parse_args tag args st = Raise e <->
  (exists a0 a1, args = [a0; a1] /\ a0 <> "using" /\ a1 <> "evaluated"
                 /\ e = TemplateSyntaxError (TwoArgumentsMsg tag))
  \/ ((4 < length args)%nat /\ e = TemplateSyntaxError (ArgumentCountMsg tag)).
Proof.
  unfold parse_args. split.
  - destruct args as [|a0 [|a1 [|a2 [|a3 [|a4 args]]]]]; intros Hp;
      try (destruct (String.eqb a0 "evaluated"); discriminate);
      try discriminate.
    + destruct (String.eqb a0 "using") eqn:H0; simpl in Hp; [discriminate|].
      destruct (String.eqb a1 "evaluated") eqn:H1; simpl in Hp; [discriminate|].
      injection Hp as <-. left. exists a0, a1.
      apply String.eqb_neq in H0, H1. auto.
    + injection Hp as <-. right. simpl. split; [lia|reflexivity].
  - intros [(a0 & a1 & -> & H0 & H1 & ->)|[Hlen ->]].
    + apply String.eqb_neq in H0, H1. rewrite H0, H1. reflexivity.
    + destruct args as [|a0 [|a1 [|a2 [|a3 [|a4 args]]]]]; simpl in Hlen;
        try lia; reflexivity.
Qed.

(** X2. [prepare] raises TemplateSyntaxError in exactly two situations:
    two arguments after the slug of which the first is not 'using' and the
    second is not 'evaluated', and more than four arguments after the slug.
    The message carries the tag name. *)
Theorem prepare_syntax_error_iff tokens msg :
  prepare tokens = Raise (TemplateSyntaxError msg) <->
  (exists tag slug a0 a1,
      tokens = [tag; slug; a0; a1] /\ a0 <> "using" /\ a1 <> "evaluated"
      /\ msg = TwoArgumentsMsg tag)
  \/ (exists tag, nth_error tokens 0 = Some tag /\ (6 < length tokens)%nat
                  /\ msg = ArgumentCountMsg tag).
Proof.
  unfold prepare, Py.index, result_bind.
  destruct tokens as [|tag [|slug args]]; simpl nth_error; cbv iota.
  - split; [discriminate|].
    intros [(? & ? & ? & ? & Ht & _)|(? & Ht & _)]; discriminate.
  - split; [discriminate|].
    intros [(? & ? & ? & ? & Ht & _)|(? & _ & Hlen & _)];
      [discriminate|simpl in Hlen; lia].
  - simpl drop. rewrite drop_0.
    destruct (parse_args tag args _) as [st1|e1] eqn:Hargs.
    + split.
      * destruct (clean_slug st1) as [st2|e2] eqn:Hslug.
        -- destruct (clean_tpl_name st2) as [st3|e3] eqn:Htpl.
           ++ intros Hc. apply convert_cache_time_raise in Hc.
              destruct Hc; discriminate.
           ++ intros He; injection He as ->.
              apply clean_tpl_name_raise in Htpl. discriminate.
        -- intros He; injection He as ->.
           apply clean_slug_raise in Hslug. discriminate.
      * assert (Hno : forall e, ~ parse_args tag args
                   (Wrapper.mk false false slug (CTInt 0) None false) = Raise e)
          by (intros e He; rewrite Hargs in He; discriminate).
        intros [(tg & sl & a0 & a1 & Ht & H0 & H1 & ->)|(tg & Ht & Hlen & ->)];
          exfalso.
        -- injection Ht as -> -> ->.
           eapply Hno, parse_args_raise_iff. left.
           exists a0, a1. repeat split; auto.
        -- injection Ht as ->. simpl in Hlen.
           eapply Hno, parse_args_raise_iff. right. split; [lia|reflexivity].
    + apply parse_args_raise_iff in Hargs. split.
      * intros He; injection He as ->.
        destruct Hargs as [(a0 & a1 & -> & H0 & H1 & He)|[Hlen He]];
          injection He as ->.
        -- left. exists tag, slug, a0, a1. auto.
        -- right. exists tag. simpl. repeat split; lia.
      * intros [(tg & sl & a0 & a1 & Ht & H0 & H1 & ->)|(tg & Ht & Hlen & ->)].
        -- injection Ht as -> -> ->.
           destruct Hargs as [(? & ? & _ & _ & _ & ->)|[Hlen _]];
             [reflexivity|simpl in Hlen; lia].
        -- injection Ht as ->. simpl in Hlen.
           destruct Hargs as [(? & ? & -> & _)|[_ ->]];
             [simpl in Hlen; lia|reflexivity].
Qed.

(** [int] converts none of the three words the parser looks for. *)
Lemma py_int_not_keyword t z :
  py_int t = Some z ->
  String.eqb t "evaluated" = false
  /\ String.eqb t "using" = false
  /\ String.eqb t "None" = false.
Proof.
  intros Hint. repeat split; apply String.eqb_neq; intros ->.
  - rewrite (py_int_plain "evaluated" None eq_refl) in Hint. discriminate.
  - rewrite (py_int_plain "using" None eq_refl) in Hint. discriminate.
  - rewrite (py_int_plain "None" None eq_refl) in Hint. discriminate.
Qed.

(** X3. The documented configurations that carry a template name or both a
    timeout and the flag parse to what the docstring says: for a non-empty
    slug token, a non-empty template token and a timeout token that int
    converts to z, the wrapper holds the cleaned slug and template name,
    cache_time z (0 without a timeout token) and the evaluated flag exactly
    when the token 'evaluated' is there. *)
Theorem documented_configurations_parse tag slug t tpl z :
  slug <> "" -> tpl <> "" -> py_int t = Some z ->
  exists isv sl isv_t name,
    not_quoted slug = Ok isv
    /\ sl = (if isv then slug else Py.slice_1_m1 slug)
    /\ not_quoted tpl = Ok isv_t
    /\ name = (if isv_t then tpl else Py.slice_1_m1 tpl)
    /\ prepare [tag; slug; "using"; tpl]
       = Ok (Wrapper.mk isv isv_t sl (CTInt 0) (Some name) false)
    /\ prepare [tag; slug; t; "using"; tpl]
       = Ok (Wrapper.mk isv isv_t sl (CTInt z) (Some name) false)
    /\ prepare [tag; slug; "evaluated"; "using"; tpl]
       = Ok (Wrapper.mk isv isv_t sl (CTInt 0) (Some name) true)
    /\ prepare [tag; slug; t; "evaluated"]
       = Ok (Wrapper.mk isv false sl (CTInt z) None true)
    /\ prepare [tag; slug; t; "evaluated"; "using"; tpl]
       = Ok (Wrapper.mk isv isv_t sl (CTInt z) (Some name) true).
Proof.
  intros Hslug Htpl Hint.
  destruct (not_quoted_total slug Hslug) as [isv Hisv].
  destruct (not_quoted_total tpl Htpl) as [isv_t Hisv_t].
  destruct (py_int_not_keyword t z Hint) as (Hev & Hus & HN).
  exists isv, (if isv then slug else Py.slice_1_m1 slug),
    isv_t, (if isv_t then tpl else Py.slice_1_m1 tpl).
  repeat (split; [reflexivity || assumption|]).
  repeat split;
    unfold prepare, Py.index, result_bind, parse_args, clean_slug,
      clean_tpl_name, convert_cache_time; simpl;
    rewrite ?Hev, ?Hus; simpl; rewrite Hisv; destruct isv; simpl;
    rewrite ?Hisv_t; destruct isv_t; simpl;
    rewrite ?HN; simpl; rewrite ?Hint; reflexivity.
Qed.

(** X4. Quoting round trip: a slug token made of any string between two
    equal quote characters parses to that string as a literal slug,
    whatever arguments follow, and alone it gives the node of an uncached,
    unevaluated block with the default template. *)
Theorem quoted_slug_roundtrip tag (s : string) q :
  Py.is_quote q = true ->
  (forall args st,
      prepare (tag :: String q (s ++ String q "") :: args) = Ok st ->
      Wrapper.slug st = s /\ Wrapper.is_variable st = false)
  /\ do_get_flatblock [tag; String q (s ++ String q "")]
     = Ok (Node.mk (Node.TemplateName "flatblocks/flatblock.html")
             s false (CTInt 0) true false).
Proof.
  intros Hq.
  assert (Hnq : not_quoted (String q (s ++ String q "")) = Ok false).
  { apply not_quoted_false. exists q. split; [exact Hq|]. split; [reflexivity|].
    change (String q (s ++ String q "")) with (String q s ++ String q "").
    apply last_append_quote. }
  assert (Hsl : Py.slice_1_m1 (String q (s ++ String q "")) = s)
    by apply drop_last_append_quote.
  split.
  - intros args st Hp.
    destruct (prepare_slug _ _ _ Hp eq_refl) as (nq & Hnq' & Hv & Hs).
    rewrite Hnq in Hnq'. injection Hnq' as <-.
    rewrite Hs, Hv, Hsl. auto.
  - unfold do_get_flatblock, FlatBlockNode, prepare, Py.index, result_bind,
      parse_args, clean_slug, clean_tpl_name, convert_cache_time. simpl.
    rewrite Hnq. simpl. rewrite drop_last_append_quote. reflexivity.
Qed.

End ParserExtras.

(** * Further properties of the render step *)

Section RenderExtras.
Context `{P : Python} `{H : Host}.

Implicit Types (self : Node.t) (context : RenderContext) (w : World).

Ltac unfold_M :=
  unfold lookup, fetch, store, objects_get, objects_get_or_create,
    cache_get_call, cache_set_call, logger_debug, lift, record_event,
    str_add, mbind, M_bind, mret, M_ret in *.

Ltac calls_norm :=
  unfold calls_since; simpl;
  repeat rewrite <- app_assoc; rewrite ?drop_app_length; simpl.

Lemma clean_slug_tpl st st' :
  clean_slug st = Ok st' ->
  Wrapper.tpl_name st' = Wrapper.tpl_name st
  /\ Wrapper.tpl_is_variable st' = Wrapper.tpl_is_variable st.
Proof.
  unfold clean_slug, result_bind.
  destruct (not_quoted (Wrapper.slug st)) as [[|]|]; intros Hc;
    try discriminate; injection Hc as <-; split; reflexivity.
Qed.

(** What a successful [prepare] did with the template-name token. *)
Lemma prepare_tpl_name tokens st tok :
  prepare tokens = Ok st ->
  last tokens = Some tok ->
  if names_template tokens then
    exists nq, not_quoted tok = Ok nq
      /\ Wrapper.tpl_is_variable st = nq
      /\ Wrapper.tpl_name st = Some (if nq then tok else Py.slice_1_m1 tok)
  else Wrapper.tpl_name st = None /\ Wrapper.tpl_is_variable st = false.
Proof.
  intros Hp Hlast. unfold prepare, Py.index, result_bind in Hp.
  destruct tokens as [|tag [|slug args]]; simpl in Hp; try discriminate.
  rewrite ?drop_0 in Hp.
  destruct (parse_args _ _ _) as [st1|] eqn:Hargs; [|discriminate].
  destruct (clean_slug st1) as [st2|] eqn:Hslug; [|discriminate].
  destruct (clean_tpl_name st2) as [st3|] eqn:Htpl; [|discriminate].
  apply convert_cache_time_inv in Hp. destruct Hp as (_ & _ & Hn & Hv & _).
  rewrite Hn, Hv. clear Hn Hv st.
  apply clean_slug_tpl in Hslug. destruct Hslug as [Hn2 Hv2].
  unfold clean_tpl_name, result_bind in Htpl. rewrite Hn2 in Htpl.
  unfold names_template. simpl drop. rewrite ?drop_0.
  unfold parse_args in Hargs.
  destruct args as [|a0 [|a1 [|a2 [|a3 [|a4 rest]]]]];
    repeat match type of Hargs with
           | context [String.eqb ?x ?y] => destruct (String.eqb x y) eqn:?
           end;
    simpl in Hargs; try discriminate; injection Hargs as <-;
    simpl in Htpl, Hv2, Hlast; try injection Hlast as ->;
    try (injection Htpl as <-; simpl; auto; fail);
    (destruct (not_quoted tok) as [[|]|]; [| |discriminate];
     injection Htpl as <-; simpl; eauto).
Qed.

(** X1. The template name of the flatblock tag follows the same rule as the
    slug. When the arguments name a template (two arguments starting with
    'using', or three or four arguments), the name is the last token: with
    one and the same quote character at both ends it is the literal between
    them, otherwise it is a variable that render resolves in the context.
    Without a template name the node renders flatblocks/flatblock.html. *)
Theorem template_name_literal_or_variable tokens n tok context :
  do_get_flatblock tokens = Ok n ->
  last tokens = Some tok ->
  if names_template tokens then
    ((exists q, Py.is_quote q = true /\ Py.first tok = Ok q /\ Py.last tok = Ok q) ->
       Node.template_name n = Node.TemplateName (Py.slice_1_m1 tok)
       /\ real_template n context = Ok (VStr (Py.slice_1_m1 tok)))
    /\ (~ (exists q, Py.is_quote q = true /\ Py.first tok = Ok q /\ Py.last tok = Ok q) ->
         Node.template_name n = Node.TemplateVariable tok
         /\ real_template n context = Variable_resolve tok context)
  else
    Node.template_name n = Node.TemplateName "flatblocks/flatblock.html"
    /\ real_template n context = Ok (VStr "flatblocks/flatblock.html").
Proof.
  intros Hn Hlast.
  destruct (prepare tokens) as [st|] eqn:Hp;
    [|unfold do_get_flatblock in Hn; rewrite Hp in Hn; discriminate].
  destruct (flatblock_node_template _ _ _ Hp Hn) as [_ Htn].
  pose proof (prepare_tpl_name _ _ _ Hp Hlast) as Ht.
  destruct (names_template tokens).
  - destruct Ht as (nq & Hnq & Hv & Hname).
    rewrite Hname, Hv in Htn. unfold real_template.
    split.
    + intros Hq. apply not_quoted_false in Hq. rewrite Hnq in Hq.
      injection Hq as ->. rewrite Htn. auto.
    + intros Hnot. destruct nq.
      * destruct Htn as [-> Hi]. unfold Variable_resolve. rewrite Hi. auto.
      * exfalso. apply Hnot, not_quoted_false. exact Hnq.
  - destruct Ht as [Hname Hv]. rewrite Hname in Htn.
    unfold real_template. rewrite Htn. auto.
Qed.

(** X5. The plain_flatblock tag reads its arguments with the same parser as
    flatblock and builds its node whenever the parser succeeds: the node has
    the parsed slug, is_variable, cache_time and evaluated flag, no output
    template and the default template name, so a 'using' clause is parsed
    and then dropped. The flatblock tag builds the same node with the
    parsed template name and with_template set, except that a template name
    given as a variable is constructed at parse time, and the tag raises
    what that construction raises. *)
Theorem plain_tag_same_grammar tokens :
  match prepare tokens with
  | Raise e =>
      do_get_flatblock tokens = Raise e /\ do_plain_flatblock tokens = Raise e
  | Ok st =>
      let node tn wt :=
        Node.mk tn (Wrapper.slug st) (Wrapper.is_variable st)
          (Wrapper.cache_time st) wt (Wrapper.evaluated st) in
      do_plain_flatblock tokens
      = Ok (node (Node.TemplateName "flatblocks/flatblock.html") false)
      /\ do_get_flatblock tokens
         = match Wrapper.tpl_name st with
           | None =>
               Ok (node (Node.TemplateName "flatblocks/flatblock.html") true)
           | Some name =>
               if Wrapper.tpl_is_variable st then
                 match Variable_init name with
                 | Ok _ => Ok (node (Node.TemplateVariable name) true)
                 | Raise e => Raise e
                 end
               else Ok (node (Node.TemplateName name) true)
           end
  end.
Proof.
  unfold do_get_flatblock, do_plain_flatblock, FlatBlockNode, result_bind.
  destruct (prepare tokens) as [st|e]; [|auto].
  split; [reflexivity|].
  destruct (Wrapper.tpl_name st) as [name|]; [|reflexivity].
  destruct (Wrapper.tpl_is_variable st); [|reflexivity].
  destruct (Variable_init name); reflexivity.
Qed.

Lemma lookup_hit self w s b :
  ct_nonzero (Node.cache_time self) = true ->
  cache_get (cache w) (CACHE_PREFIX ++ s) = Some b ->
  lookup self (VStr s) w
  = (Ok b, record_event (CacheGet (CACHE_PREFIX ++ s)) w).
Proof.
  intros Hnz Hget. unfold_M. rewrite Hnz; simpl. rewrite Hget. reflexivity.
Qed.

(** X6. In the lookup step of a node built by either tag nothing but
    DoesNotExist is ever raised for a string slug: the cache_time of such a
    node is the string 'None' or an integer, so the int conversion before
    cache.set succeeds; and DoesNotExist is raised only when the datastore
    has no record for the slug. *)
Theorem parsed_node_lookup tokens n s w :
  do_get_flatblock tokens = Ok n \/ do_plain_flatblock tokens = Ok n ->
  (Node.cache_time n = CTStr "None" \/ exists z, Node.cache_time n = CTInt z)
  /\ ((exists b, fst (lookup n (VStr s) w) = Ok b)
      \/ (fst (lookup n (VStr s) w) = Raise DoesNotExist /\ db w !! s = None)).
Proof.
  intros Hn.
  assert (Hct : Node.cache_time n = CTStr "None"
                \/ exists z, Node.cache_time n = CTInt z).
  { destruct (prepare tokens) as [st|] eqn:Hp.
    - destruct (tag_node_slug _ _ _ Hp Hn) as (_ & _ & -> & _).
      apply (prepare_cache_time _ _ Hp).
    - unfold do_get_flatblock, do_plain_flatblock in Hn. rewrite Hp in Hn.
      destruct Hn; discriminate. }
  split; [exact Hct|].
  unfold_M.
  destruct Hct as [->|[z ->]]; simpl;
    try destruct (negb (z =? 0)); simpl;
    try destruct (cache_get (cache w) (CACHE_PREFIX ++ s)); simpl; eauto;
    destruct (Node.is_variable n || negb AUTOCREATE_STATIC_BLOCKS); simpl;
    destruct (db w !! s); simpl; eauto.
Qed.

(** The datastore after a lookup: as before, or with the created record. *)
Lemma lookup_db self w s :
  db (snd (lookup self (VStr s) w)) = db w
  \/ (db w !! s = None
      /\ db (snd (lookup self (VStr s) w)) = <[s := created_block s s]> (db w)).
Proof.
  unfold_M.
  destruct (ct_nonzero (Node.cache_time self)); simpl;
    try destruct (cache_get (cache w) (CACHE_PREFIX ++ s)); simpl; auto;
    destruct (Node.is_variable self || negb AUTOCREATE_STATIC_BLOCKS); simpl;
    destruct (db w !! s) eqn:Hdb; simpl; auto;
    try destruct (ct_is_none (Node.cache_time self)); simpl; auto;
    try destruct (ct_int (Node.cache_time self)); simpl; auto.
Qed.

(** The cache after a lookup that made no cache.set call. *)
Lemma lookup_cache_unchanged self w s :
  ct_nonzero (Node.cache_time self) = false
    \/ is_Some (cache_get (cache w) (CACHE_PREFIX ++ s)) ->
  cache (snd (lookup self (VStr s) w)) = cache w.
Proof.
  intros Hc. unfold_M.
  destruct (ct_nonzero (Node.cache_time self)); simpl.
  - destruct Hc as [?|[b Hb]]; [discriminate|]. rewrite Hb. reflexivity.
  - destruct (Node.is_variable self || negb AUTOCREATE_STATIC_BLOCKS); simpl;
      destruct (db w !! s); reflexivity.
Qed.

(** X7. The lookup step of render (lines 186-214) never changes or removes
    a record of the datastore: every record present before is present
    unchanged afterwards, and no slug other than the resolved one is
    touched. With cache_time 0, and on a cache hit, it leaves the cache as
    it was; on a hit the datastore too. These are the cache and the
    datastore the render leaves wherever the templates rendered afterwards
    write to neither. *)
Theorem lookup_frame self w s :
  let w1 := snd (lookup self (VStr s) w) in
  (forall k b, db w !! k = Some b -> db w1 !! k = Some b)
  /\ (forall k, k <> s -> db w1 !! k = db w !! k)
  /\ (ct_nonzero (Node.cache_time self) = false -> cache w1 = cache w)
  /\ (ct_nonzero (Node.cache_time self) = true ->
      is_Some (cache_get (cache w) (CACHE_PREFIX ++ s)) ->
      cache w1 = cache w /\ db w1 = db w)
  /\ (forall context t,
        renderings_keep_stores ->
        real_slug self context = Ok (VStr s) ->
        real_template self context = Ok t ->
        cache (snd (render self context w)) = cache w1
        /\ db (snd (render self context w)) = db w1).
Proof.
  intros w1. subst w1.
  split; [|split; [|split; [|split]]].
  - intros k b Hk.
    destruct (lookup_db self w s) as [->|[Hnone ->]]; [exact Hk|].
    rewrite lookup_insert_ne; [exact Hk|]. intros <-. congruence.
  - intros k Hk.
    destruct (lookup_db self w s) as [->|[Hnone ->]]; [reflexivity|].
    rewrite lookup_insert_ne; [reflexivity|]. congruence.
  - intros Hz. apply lookup_cache_unchanged. auto.
  - intros Hnz [b Hb]. rewrite (lookup_hit self w s b Hnz Hb). simpl. auto.
  - intros context t Hk Hs Ht. apply (render_keeps _ _ _ _ _ Hk Hs Ht).
Qed.

(** A lookup that finds the record in the datastore, is not allowed to
    create one, or is served by the cache leaves the datastore as it was. *)
Lemma lookup_db_unchanged self w s :
  is_Some (db w !! s)
  \/ Node.is_variable self || negb AUTOCREATE_STATIC_BLOCKS = true
  \/ (ct_nonzero (Node.cache_time self) = true
      /\ is_Some (cache_get (cache w) (CACHE_PREFIX ++ s))) ->
  db (snd (lookup self (VStr s) w)) = db w.
Proof.
  intros Hc. destruct (lookup_db self w s) as [Heq|[Hnone Hins]]; [exact Heq|].
  destruct Hc as [[b Hb]|[Hpol|[Hnz [b Hb]]]].
  - congruence.
  - revert Hins. unfold_M. rewrite Hpol.
    destruct (ct_nonzero (Node.cache_time self)); simpl;
      try destruct (cache_get (cache w) (CACHE_PREFIX ++ s)); simpl;
      rewrite ?Hnone; simpl; reflexivity.
  - rewrite (lookup_hit self w s b Hnz Hb). reflexivity.
Qed.

(** What the first of two lookups leaves for the second. *)
Lemma lookup_then self w s :
  let w1 := snd (lookup self (VStr s) w) in
  is_Some (db w1 !! s)
  \/ Node.is_variable self || negb AUTOCREATE_STATIC_BLOCKS = true
  \/ (ct_nonzero (Node.cache_time self) = true
      /\ is_Some (cache_get (cache w1) (CACHE_PREFIX ++ s))).
Proof.
  unfold_M.
  destruct (Node.is_variable self || negb AUTOCREATE_STATIC_BLOCKS) eqn:Hpol;
    [auto|].
  destruct (ct_nonzero (Node.cache_time self)) eqn:Hnz; simpl;
    try (destruct (cache_get (cache w) (CACHE_PREFIX ++ s)) eqn:Hget; simpl;
         [right; right; split; [reflexivity|]; rewrite Hget; eauto|]);
    destruct (db w !! s) eqn:Hdb; simpl;
    try destruct (ct_is_none (Node.cache_time self)); simpl;
    try destruct (ct_int (Node.cache_time self)); simpl;
    left; rewrite ?Hdb, ?lookup_insert_eq; eauto.
Qed.

Lemma render_template_raise self context w e :
  real_template self context = Raise e ->
  (exists v, real_slug self context = Ok v) ->
  render self context w = (Raise e, w).
Proof.
  intros Ht [v Hs]. unfold render, lift, mbind, M_bind.
  rewrite Hs; simpl. rewrite Ht. reflexivity.
Qed.

(** X8. Where the templates that are rendered write neither to the cache
    nor to the datastore, rendering a node twice on a string slug changes
    the datastore at most once: the second render leaves the datastore as
    the first one left it, whatever the cache did with the first write. *)
Theorem render_datastore_idempotent self context w s :
  renderings_keep_stores ->
  real_slug self context = Ok (VStr s) ->
  let w1 := snd (render self context w) in
  db (snd (render self context w1)) = db w1.
Proof.
  intros Hk Hs w1. subst w1.
  destruct (real_template self context) as [t|e] eqn:Ht.
  - destruct (render_keeps self context w _ _ Hk Hs Ht) as [Hc Hd].
    destruct (render_keeps self context (snd (render self context w)) _ _
                Hk Hs Ht) as [_ Hd2].
    rewrite Hd2. apply lookup_db_unchanged.
    pose proof (lookup_then self w s) as Hthen. simpl in Hthen.
    rewrite Hc, Hd. exact Hthen.
  - rewrite !(render_template_raise _ _ _ _ Ht (ex_intro _ _ Hs)).
    reflexivity.
Qed.

(** X9. On a cache that returns what was just set, a lookup that missed the
    cache, read the record from the datastore and cached it is followed by
    a lookup that makes one call, the cache read, and returns the same
    record. Where the templates rendered in between write neither to the
    cache nor to the datastore, the render after such a render makes the
    cache read as its only call. *)
Theorem second_lookup_from_cache self w s b :
  (forall c key b' timeout, cache_get (cache_set c key b' timeout) key = Some b') ->
  ct_nonzero (Node.cache_time self) = true ->
  ct_is_none (Node.cache_time self) = true
    \/ (exists z, ct_int (Node.cache_time self) = Ok z) ->
  cache_get (cache w) (CACHE_PREFIX ++ s) = None ->
  fst (fetch self (VStr s) w) = Ok b ->
  let w1 := snd (lookup self (VStr s) w) in
  fst (lookup self (VStr s) w) = Ok b
  /\ lookup self (VStr s) w1
     = (Ok b, record_event (CacheGet (CACHE_PREFIX ++ s)) w1)
  /\ (forall context t,
        renderings_keep_stores ->
        real_slug self context = Ok (VStr s) ->
        real_template self context = Ok t ->
        let wr := snd (render self context w) in
        calls_since wr (snd (render self context wr))
        = [CacheGet (CACHE_PREFIX ++ s)]).
Proof.
  intros Hretain Hnz Hconv Hmiss Hb w1.
  assert (Hl : exists w1', lookup self (VStr s) w = (Ok b, w1')
                /\ cache_get (cache w1') (CACHE_PREFIX ++ s) = Some b).
  { revert Hb. unfold_M. rewrite Hnz; simpl. rewrite Hmiss; simpl.
    destruct (Node.is_variable self || negb AUTOCREATE_STATIC_BLOCKS); simpl;
      destruct (db w !! s); simpl; intros Hb; try discriminate;
      injection Hb as <-;
      (destruct (ct_is_none (Node.cache_time self)) eqn:Hn; simpl;
       [|destruct Hconv as [?|[z Hz]]; [discriminate|rewrite Hz; simpl]]);
      eexists; (split; [reflexivity|]); simpl; apply Hretain. }
  destruct Hl as (w1' & Hl & Hget).
  assert (Hw1 : w1 = w1') by (subst w1; rewrite Hl; reflexivity).
  rewrite Hw1. split; [rewrite Hl; reflexivity|].
  split; [apply (lookup_hit self w1' s b Hnz Hget)|].
  intros context t Hk Hs Ht wr.
  destruct (render_keeps self context w _ _ Hk Hs Ht) as [Hc _].
  rewrite Hl in Hc. simpl in Hc.
  assert (Hget' : cache_get (cache wr) (CACHE_PREFIX ++ s) = Some b)
    by (subst wr; rewrite Hc; exact Hget).
  rewrite (render_calls _ _ _ _ _ Hs Ht).
  rewrite (lookup_hit self wr s b Hnz Hget').
  unfold calls_since, record_event; simpl. apply drop_app_length.
Qed.

(** X10. The try block of render starts after the slug and the template name
    are resolved: an exception of either resolution leaves render, even
    DoesNotExist, before any call is made. Inside it, DoesNotExist raised
    while the content is evaluated or the output template is rendered is
    caught like a missing record and gives the empty string; any other
    exception leaves render. In both cases the calls of the lookup, a cache
    write included, have been made, and what the failed rendering did to
    the state stays done. *)
Theorem render_exception_scope self context w :
  (forall e, real_slug self context = Raise e ->
     render self context w = (Raise e, w))
  /\ (forall v e, real_slug self context = Ok v ->
        real_template self context = Raise e ->
        render self context w = (Raise e, w))
  /\ (forall v t b w1 e w2,
        real_slug self context = Ok v ->
        real_template self context = Ok t ->
        lookup self v w = (Ok b, w1) ->
        evaluate_block self context b w1 = (Raise e, w2) ->
        render self context w
        = (if exn_is_DoesNotExist e then Ok "" else Raise e, w2))
  /\ (forall v t b w1 b' w2 e x3,
        real_slug self context = Ok v ->
        real_template self context = Ok t ->
        lookup self v w = (Ok b, w1) ->
        evaluate_block self context b w1 = (Ok b', w2) ->
        Node.with_template self = true ->
        loader_render t (<[ "flatblock" := VBlock b' ]> context)
          (world_state w2) = (Raise e, x3) ->
        render self context w
        = (if exn_is_DoesNotExist e then Ok "" else Raise e, with_state x3 w2)).
Proof.
  split; [|split; [|split]].
  - intros e Hs. unfold render, lift, mbind, M_bind. rewrite Hs. reflexivity.
  - intros v e Hs Ht. unfold render, lift, mbind, M_bind.
    rewrite Hs; simpl. rewrite Ht. reflexivity.
  - intros v t b w1 e w2 Hs Ht Hl He.
    unfold render, try_except_DoesNotExist, lift, mbind, M_bind.
    rewrite Hs, Ht; simpl. rewrite Hl; simpl. rewrite He; simpl.
    destruct (exn_is_DoesNotExist e); reflexivity.
  - intros v t b w1 b' w2 e x3 Hs Ht Hl He Hwt Ho.
    unfold render, try_except_DoesNotExist, lift, mbind, M_bind.
    rewrite Hs, Ht; simpl. rewrite Hl; simpl. rewrite He; simpl.
    unfold output, host_call. rewrite Hwt, new_ctx_insert, Ho.
    destruct (exn_is_DoesNotExist e); reflexivity.
Qed.

(** X11. A node built with a cache_time string that is not 'None' and that
    the interpreter's int rejects raises ValueError from render once a
    record has been read from the datastore: the record is not cached, the
    cache is left as it was, and a record the read created stays in the
    datastore. *)
Theorem render_unconvertible_timeout self context w s t x b :
  real_slug self context = Ok (VStr s) ->
  real_template self context = Ok t ->
  Node.cache_time self = CTStr x ->
  x <> "None" ->
  py_int x = None ->
  cache_get (cache w) (CACHE_PREFIX ++ s) = None ->
  fst (fetch self (VStr s) w) = Ok b ->
  let r := render self context w in
  fst r = Raise ValueError
  /\ cache (snd r) = cache w
  /\ List.filter is_CacheSet (calls_since w (snd r)) = []
  /\ db (snd r) !! s = Some b.
Proof.
  intros Hs Ht Hct Hx Hint Hmiss Hb r. subst r.
  apply String.eqb_neq in Hx.
  assert (Hl : exists d l, lookup self (VStr s) w
                = (Raise ValueError, mkWorld (cache w) d (env w) (trace w ++ l))
                /\ List.filter is_CacheSet l = [] /\ d !! s = Some b).
  { revert Hb. unfold_M. unfold ct_int. rewrite Hct; simpl.
    rewrite Hmiss, Hx, Hint; simpl.
    destruct (Node.is_variable self || negb AUTOCREATE_STATIC_BLOCKS); simpl;
      destruct (db w !! s) eqn:Hdb; simpl; intros Hb; try discriminate;
      injection Hb as <-; repeat rewrite <- app_assoc;
      do 2 eexists; (split; [reflexivity|]); split;
      rewrite ?lookup_insert_eq; auto. }
  destruct Hl as (d & l & Hl & Hsets & Hd).
  unfold render, try_except_DoesNotExist, lift, mbind, M_bind.
  rewrite Hs, Ht; simpl. rewrite Hl; simpl.
  unfold calls_since; simpl. rewrite drop_app_length. auto.
Qed.

(** X13. A slug variable that resolves to something that is not a string
    makes render raise TypeError when cache_time is not 0: the cache key
    cannot be built, and neither the cache nor the datastore is called. *)
Theorem render_nonstring_slug self context w v t :
  real_slug self context = Ok v ->
  (forall s, v <> VStr s) ->
  real_template self context = Ok t ->
  ct_nonzero (Node.cache_time self) = true ->
  render self context w = (Raise TypeError, w).
Proof.
  intros Hs Hv Ht Hnz.
  unfold render, try_except_DoesNotExist, lift, mbind, M_bind.
  rewrite Hs, Ht; simpl. unfold_M. rewrite Hnz.
  destruct v as [s| | |]; [destruct (Hv s eq_refl)| | |]; reflexivity.
Qed.

End RenderExtras.

(** * The theorems at work on the dictionary host *)


Lemma datastore_autocreate_example :
  let P := DictHost.python in
  let H := DictHost.host true in
  let n := DictHost.literal_faq in
  let w := DictHost.help_world true in
  db w !! "faq" = None
  /\ (is_Some (db (snd (lookup n (VStr "faq") w)) !! "faq")
      <-> Node.is_variable n = false /\ AUTOCREATE_STATIC_BLOCKS = true).
Proof.
  split; [reflexivity|].
  exact (proj1 (datastore_autocreate (P := DictHost.python)
                  (H := DictHost.host true)
                  DictHost.literal_faq DictHost.page_context
                  (DictHost.help_world true) "faq"
                  (VStr DictHost.default_template)
                  eq_refl eq_refl (or_introl eq_refl) eq_refl)).
Defined.

Lemma render_missing_record_example :
  let P := DictHost.python in
  let H := DictHost.host false in
  let n := DictHost.literal_faq in
  let w := DictHost.help_world false in
  db w !! "faq" = None
  /\ fst (render n DictHost.page_context w) = Ok "".
Proof.
  split; [reflexivity|].
  exact (proj1 (render_missing_record (P := DictHost.python)
                  (H := DictHost.host false)
                  DictHost.literal_faq DictHost.page_context
                  (DictHost.help_world false) "faq"
                  (VStr DictHost.default_template)
                  eq_refl eq_refl (or_introl eq_refl) eq_refl
                  (or_intror eq_refl))).
Defined.

Lemma slug_literal_or_variable_example :
  let P := DictHost.python in
  let H := DictHost.host true in
  let tokens := ["flatblock"; "'help'"; "60"] in
  let st := Wrapper.mk false false "help" (CTInt 60) None false in
  prepare tokens = Ok st
  /\ nth_error tokens 1 = Some "'help'"
  /\ do_get_flatblock tokens = Ok DictHost.cached_help
  /\ Node.is_variable DictHost.cached_help = false
  /\ Node.slug DictHost.cached_help = Py.slice_1_m1 "'help'".
Proof.
  split; [reflexivity|]. split; [reflexivity|]. split; [reflexivity|].
  destruct (proj1 (slug_literal_or_variable (P := DictHost.python)
                     (H := DictHost.host true)
                     ["flatblock"; "'help'"; "60"]
                     (Wrapper.mk false false "help" (CTInt 60) None false)
                     "'help'" DictHost.cached_help DictHost.page_context
                     (DictHost.help_world true)
                     eq_refl eq_refl (or_introl eq_refl))
              (ex_intro _ "'"%char (conj eq_refl (conj eq_refl eq_refl))))
    as (Hv & Hs & _).
  exact (conj Hv Hs).
Defined.

Lemma render_evaluated_example :
  let P := DictHost.python in
  let H := DictHost.host true in
  let n := DictHost.plain_evaluated_help in
  let w := DictHost.help_world true in
  real_slug n DictHost.page_context = Ok (VStr "help")
  /\ real_template n DictHost.page_context = Ok (VStr DictHost.default_template)
  /\ lookup n (VStr "help") w
     = (Ok DictHost.help_block, DictHost.help_world_read true)
  /\ render n DictHost.page_context w
     = (Ok "<Call us>", DictHost.help_world_read true).
Proof.
  split; [reflexivity|]. split; [reflexivity|]. split; [reflexivity|].
  exact (proj1 (proj2 (proj1 (render_evaluated (P := DictHost.python)
           (H := DictHost.host true)
           DictHost.plain_evaluated_help DictHost.page_context
           (DictHost.help_world true) "help" (VStr DictHost.default_template)
           DictHost.help_block (DictHost.help_world_read true)
           eq_refl eq_refl eq_refl)
         eq_refl "<Call us>"
         (world_state (DictHost.help_world_read true)) "<Help>"
         (world_state (DictHost.help_world_read true)) eq_refl eq_refl))
         eq_refl).
Defined.

Lemma render_output_example :
  let P := DictHost.python in
  let H := DictHost.host true in
  let n := DictHost.literal_help in
  let w := DictHost.help_world true in
  real_slug n DictHost.page_context = Ok (VStr "help")
  /\ real_template n DictHost.page_context = Ok (VStr DictHost.default_template)
  /\ lookup n (VStr "help") w
     = (Ok DictHost.help_block, DictHost.help_world_read true)
  /\ evaluate_block n DictHost.page_context DictHost.help_block
       (DictHost.help_world_read true)
     = (Ok DictHost.help_block, DictHost.help_world_read true)
  /\ render n DictHost.page_context w
     = (Ok "flatblocks/flatblock.html:Call us", DictHost.help_world_read true).
Proof.
  split; [reflexivity|]. split; [reflexivity|]. split; [reflexivity|].
  split; [reflexivity|].
  exact (proj1 (render_output (P := DictHost.python)
           (H := DictHost.host true)
           DictHost.literal_help DictHost.page_context
           (DictHost.help_world true) "help" (VStr DictHost.default_template)
           DictHost.help_block (DictHost.help_world_read true)
           DictHost.help_block (DictHost.help_world_read true)
           eq_refl eq_refl eq_refl eq_refl)
         eq_refl "flatblocks/flatblock.html:Call us"
         (world_state (DictHost.help_world_read true)) eq_refl).
Defined.

Lemma one_argument_flag_or_timeout_example :
  let P := DictHost.python in
  "'help'" <> ""
  /\ exists st, prepare ["flatblock"; "'help'"; "60"] = Ok st
       /\ Wrapper.cache_time st = CTInt 60
       /\ Wrapper.evaluated st = false.
Proof.
  assert (Hne : "'help'" <> "") by (intros Heq; discriminate Heq).
  split; [exact Hne|].
  assert (Ha : "60" <> "evaluated") by (intros Heq; discriminate Heq).
  exact (proj2 (proj2 (one_argument_flag_or_timeout (P := DictHost.python)
                         "flatblock" "'help'" "60" Hne)) Ha).
Defined.

Lemma none_timeout_uses_default_example :
  let P := DictHost.python in
  let H := DictHost.host true in
  let n := DictHost.none_help in
  let w := DictHost.help_world true in
  real_slug n DictHost.page_context = Ok (VStr "help")
  /\ real_template n DictHost.page_context = Ok (VStr DictHost.default_template)
  /\ cache_get (cache w) "flatblocks_help" = None
  /\ fst (fetch n (VStr "help") w) = Ok DictHost.help_block
  /\ List.filter is_CacheSet
       (calls_since w (snd (render n DictHost.page_context w)))
     = [CacheSet "flatblocks_help" DictHost.help_block DefaultTimeout].
Proof.
  split; [reflexivity|]. split; [reflexivity|]. split; [reflexivity|].
  split; [reflexivity|].
  exact (proj2 (proj1 (none_timeout_uses_default (P := DictHost.python)
           (H := DictHost.host true)
           DictHost.none_help DictHost.page_context
           (DictHost.help_world true) "help" (VStr DictHost.default_template)
           DictHost.help_block eq_refl eq_refl eq_refl eq_refl) eq_refl)).
Defined.

Lemma prepare_not_total_example :
  let P := DictHost.python in
  prepare ["plain_flatblock"] = Raise IndexError.
Proof.
  exact (proj1 (prepare_not_total (P := DictHost.python))
           ["plain_flatblock"] (le_n 2)).
Defined.

Lemma prepare_syntax_error_iff_example :
  let P := DictHost.python in
  prepare ["flatblock"; "'help'"; "10"; "bogus"]
  = Raise (TemplateSyntaxError (TwoArgumentsMsg "flatblock")).
Proof.
  apply (proj2 (prepare_syntax_error_iff (P := DictHost.python)
                  ["flatblock"; "'help'"; "10"; "bogus"]
                  (TwoArgumentsMsg "flatblock"))).
  left. exists "flatblock", "'help'", "10", "bogus".
  split; [reflexivity|]. split; [intros Heq; discriminate Heq|].
  split; [intros Heq; discriminate Heq|reflexivity].
Defined.

Lemma documented_configurations_parse_example :
  let P := DictHost.python in
  "'help'" <> "" /\ "'box.html'" <> "" /\ py_int "60" = Some 60
  /\ prepare ["flatblock"; "'help'"; "60"; "using"; "'box.html'"]
     = Ok (Wrapper.mk false false "help" (CTInt 60) (Some "box.html") false).
Proof.
  assert (H1 : "'help'" <> "") by (intros Heq; discriminate Heq).
  assert (H2 : "'box.html'" <> "") by (intros Heq; discriminate Heq).
  split; [exact H1|]. split; [exact H2|]. split; [reflexivity|].
  destruct (documented_configurations_parse (P := DictHost.python)
              "flatblock" "'help'" "60" "'box.html'" 60 H1 H2 eq_refl)
    as (isv & sl & isv_t & name & Hisv & Hsl & Hisv_t & Hname & _ & Hp & _).
  injection Hisv as <-. injection Hisv_t as <-. subst sl name. exact Hp.
Defined.

Lemma quoted_slug_roundtrip_example :
  let P := DictHost.python in
  let H := DictHost.host true in
  Py.is_quote "'"%char = true
  /\ do_get_flatblock ["flatblock"; "'help'"] = Ok DictHost.literal_help.
Proof.
  split; [reflexivity|].
  exact (proj2 (quoted_slug_roundtrip (P := DictHost.python)
                  (H := DictHost.host true) "flatblock" "help" "'"%char
                  eq_refl)).
Defined.

Lemma template_name_literal_or_variable_example :
  let P := DictHost.python in
  let H := DictHost.host true in
  let tokens := ["flatblock"; "'help'"; "using"; "'box.html'"] in
  do_get_flatblock tokens = Ok DictHost.boxed_help
  /\ last tokens = Some "'box.html'"
  /\ real_template DictHost.boxed_help DictHost.page_context
     = Ok (VStr "box.html").
Proof.
  split; [reflexivity|]. split; [reflexivity|].
  exact (proj2 (proj1 (template_name_literal_or_variable
           (P := DictHost.python) (H := DictHost.host true)
           ["flatblock"; "'help'"; "using"; "'box.html'"]
           DictHost.boxed_help "'box.html'" DictHost.page_context
           eq_refl eq_refl)
         (ex_intro _ "'"%char (conj eq_refl (conj eq_refl eq_refl))))).
Defined.

Lemma plain_tag_same_grammar_example :
  let P := DictHost.python in
  let H := DictHost.host true in
  let tokens := ["flatblock"; "'help'"; "using"; "_tpl"] in
  do_plain_flatblock tokens = Ok DictHost.plain_help
  /\ do_get_flatblock tokens
     = Raise (TemplateSyntaxError (OtherSyntaxMsg "underscore")).
Proof.
  exact (plain_tag_same_grammar (P := DictHost.python)
           (H := DictHost.host true)
           ["flatblock"; "'help'"; "using"; "_tpl"]).
Defined.

Lemma parsed_node_lookup_example :
  let P := DictHost.python in
  let H := DictHost.host false in
  let n := DictHost.literal_faq in
  let w := DictHost.help_world false in
  do_get_flatblock ["flatblock"; "'faq'"] = Ok n
  /\ ((exists b, fst (lookup n (VStr "faq") w) = Ok b)
      \/ (fst (lookup n (VStr "faq") w) = Raise DoesNotExist
          /\ db w !! "faq" = None)).
Proof.
  split; [reflexivity|].
  exact (proj2 (parsed_node_lookup (P := DictHost.python)
                  (H := DictHost.host false)
                  ["flatblock"; "'faq'"] DictHost.literal_faq "faq"
                  (DictHost.help_world false) (or_introl eq_refl))).
Defined.

Lemma dict_host_keeps_stores (autocreate : bool) :
  @renderings_keep_stores (DictHost.host autocreate).
Proof.
  split.
  - intros source context x. split; reflexivity.
  - intros name context x. simpl. unfold DictHost.render_file.
    destruct name; try (split; reflexivity).
    destruct (context !! "flatblock") as [[]|]; split; reflexivity.
Defined.

Lemma render_datastore_idempotent_example :
  let P := DictHost.python in
  let H := DictHost.host true in
  let n := DictHost.literal_faq in
  let w := DictHost.help_world true in
  let w1 := snd (render n DictHost.page_context w) in
  renderings_keep_stores
  /\ real_slug n DictHost.page_context = Ok (VStr "faq")
  /\ db (snd (render n DictHost.page_context w1)) = db w1.
Proof.
  split; [exact (dict_host_keeps_stores true)|]. split; [reflexivity|].
  exact (render_datastore_idempotent (P := DictHost.python)
           (H := DictHost.host true)
           DictHost.literal_faq DictHost.page_context
           (DictHost.help_world true) "faq"
           (dict_host_keeps_stores true) eq_refl).
Defined.

Lemma second_lookup_from_cache_example :
  let P := DictHost.python in
  let H := DictHost.host true in
  let n := DictHost.none_help in
  let w := DictHost.help_world true in
  (forall c key b timeout, cache_get (cache_set c key b timeout) key = Some b)
  /\ cache_get (cache w) "flatblocks_help" = None
  /\ fst (fetch n (VStr "help") w) = Ok DictHost.help_block
  /\ fst (lookup n (VStr "help") w) = Ok DictHost.help_block.
Proof.
  assert (Hretain : forall (c : @Cache (DictHost.host true)) key b timeout,
             @cache_get (DictHost.host true)
               (@cache_set (DictHost.host true) c key b timeout) key = Some b)
    by (intros c key b timeout; apply lookup_insert_eq).
  split; [exact Hretain|]. split; [reflexivity|]. split; [reflexivity|].
  exact (proj1 (second_lookup_from_cache (P := DictHost.python)
                  (H := DictHost.host true)
                  DictHost.none_help (DictHost.help_world true) "help"
                  DictHost.help_block Hretain eq_refl
                  (or_introl eq_refl) eq_refl eq_refl)).
Defined.

Lemma render_exception_scope_example :
  let P := DictHost.python in
  let H := DictHost.host true in
  let w := DictHost.help_world true in
  render DictHost.unbound_variable DictHost.page_context w
  = (Raise (HostError "VariableDoesNotExist"), w).
Proof.
  exact (proj1 (render_exception_scope (P := DictHost.python)
                  (H := DictHost.host true)
                  DictHost.unbound_variable DictHost.page_context
                  (DictHost.help_world true))
           (HostError "VariableDoesNotExist") eq_refl).
Defined.

Lemma render_unconvertible_timeout_example :
  let P := DictHost.python in
  let H := DictHost.host true in
  let n := DictHost.unconvertible_help in
  let w := DictHost.help_world true in
  Node.cache_time n = CTStr "soon"
  /\ py_int "soon" = None
  /\ fst (fetch n (VStr "help") w) = Ok DictHost.help_block
  /\ fst (render n DictHost.page_context w) = Raise ValueError.
Proof.
  split; [reflexivity|]. split; [reflexivity|]. split; [reflexivity|].
  assert (Hx : "soon" <> "None") by (intros Heq; discriminate Heq).
  exact (proj1 (render_unconvertible_timeout (P := DictHost.python)
                  (H := DictHost.host true)
                  DictHost.unconvertible_help DictHost.page_context
                  (DictHost.help_world true) "help"
                  (VStr DictHost.default_template)
                  "soon" DictHost.help_block
                  eq_refl eq_refl eq_refl Hx eq_refl eq_refl eq_refl)).
Defined.

Lemma render_nonstring_slug_example :
  let P := DictHost.python in
  let H := DictHost.host true in
  let n := DictHost.counted_variable in
  let w := DictHost.help_world true in
  real_slug n DictHost.page_context = Ok (VInt 42)
  /\ render n DictHost.page_context w = (Raise TypeError, w).
Proof.
  split; [reflexivity|].
  assert (Hv : forall s, VInt 42 <> VStr s) by (intros s Heq; discriminate Heq).
  exact (render_nonstring_slug (P := DictHost.python)
           (H := DictHost.host true)
           DictHost.counted_variable DictHost.page_context
           (DictHost.help_world true) (VInt 42)
           (VStr DictHost.default_template) eq_refl Hv eq_refl eq_refl).
Defined.
